(** * Life in weeks: the date arithmetic and grid state of [src/App.vue]

    The component reads a birth date (from the [dob] query parameter or from
    a date picker), captures the current instant once, and colours one cell
    per week of a 90-year grid.  This development embeds the script part of
    the component and the two class expressions of the template, and proves
    the properties the specification states about them.

    Modelling conventions.
    - A JavaScript [Date] is its time value in milliseconds, read in local
      time.  The local zone is taken to have a fixed offset from UTC (no
      daylight-saving transitions), so local time is a translation of UTC:
      the order of instants and every difference of two [getTime()] values
      is the same in both, and the offset cancels.  The range limit of time
      values (8.64e15 ms either side of the epoch) is not modelled.
    - The numbers the script computes with are integers far below 2^53, on
      which IEEE double arithmetic is exact; they are modelled in [Z].
    - The calendar functions follow ECMA-262 (Day, DayFromYear, YearFromTime,
      MonthFromTime, DateFromTime, MakeDay, MakeDate). *)

From Stdlib Require Import ZArith Lia Bool List Ascii String.
Import ListNotations.
Local Open Scope Z_scope.

(** ** ECMA-262 time values *)

Module ES.

Definition msPerDay : Z := 86400000.

Definition Day (t : Z) : Z := t / msPerDay.

Definition TimeWithinDay (t : Z) : Z := t mod msPerDay.

Definition DaysInYear (y : Z) : Z :=
  if negb (y mod 4 =? 0) then 365
  else if negb (y mod 100 =? 0) then 366
  else if negb (y mod 400 =? 0) then 365
  else 366.

Definition DayFromYear (y : Z) : Z :=
  365 * (y - 1970) + (y - 1969) / 4 - (y - 1901) / 100 + (y - 1601) / 400.

Definition TimeFromYear (y : Z) : Z := msPerDay * DayFromYear y.

(** 1 when year [y] has 366 days, else 0. *)
Definition leapDays (y : Z) : Z := if DaysInYear y =? 366 then 1 else 0.

(** ECMA-262 defines [YearFromTime t] as the largest [y] with
    [TimeFromYear y <= t].  It is computed here from an estimate that is at
    most one year off; [YearFromDay_spec] below shows that the result is that
    largest year. *)
Definition YearFromDay (n : Z) : Z :=
  let y := 1970 + (400 * n) / 146097 in
  if DayFromYear (y + 1) <=? n then y + 1
  else if DayFromYear y <=? n then y
  else y - 1.

Definition YearFromTime (t : Z) : Z := YearFromDay (Day t).

Definition InLeapYear (t : Z) : Z := leapDays (YearFromTime t).

Definition DayWithinYear (t : Z) : Z := Day t - DayFromYear (YearFromTime t).

(** Index of the first day of month [m] (0 = January) within a year, for
    [leap] = 0 or 1; the table behind MonthFromTime and DateFromTime. *)
Definition monthStart (leap m : Z) : Z :=
  match m with
  | 0 => 0
  | 1 => 31
  | 2 => 59 + leap
  | 3 => 90 + leap
  | 4 => 120 + leap
  | 5 => 151 + leap
  | 6 => 181 + leap
  | 7 => 212 + leap
  | 8 => 243 + leap
  | 9 => 273 + leap
  | 10 => 304 + leap
  | 11 => 334 + leap
  | _ => 365 + leap
  end.

Definition monthOfDayWithinYear (leap d : Z) : Z :=
  if d <? 31 then 0
  else if d <? 59 + leap then 1
  else if d <? 90 + leap then 2
  else if d <? 120 + leap then 3
  else if d <? 151 + leap then 4
  else if d <? 181 + leap then 5
  else if d <? 212 + leap then 6
  else if d <? 243 + leap then 7
  else if d <? 273 + leap then 8
  else if d <? 304 + leap then 9
  else if d <? 334 + leap then 10
  else 11.

Definition MonthFromTime (t : Z) : Z :=
  monthOfDayWithinYear (InLeapYear t) (DayWithinYear t).

Definition DateFromTime (t : Z) : Z :=
  DayWithinYear t - monthStart (InLeapYear t) (MonthFromTime t) + 1.

(** [MakeDay year month date]: the day number of the first of month
    [month mod 12] in year [year + floor(month / 12)], plus [date - 1]. *)
Definition MakeDay (year month date : Z) : Z :=
  let ym := year + month / 12 in
  let mn := month mod 12 in
  DayFromYear ym + monthStart (leapDays ym) mn + date - 1.

Definition MakeDate (day time : Z) : Z := day * msPerDay + time.

(** Number of days of month [m] (0 = January), read off the same table. *)
Definition daysInMonth (leap m : Z) : Z := monthStart leap (m + 1) - monthStart leap m.

End ES.

(** ** The [Date] object *)

Definition Date : Type := Z.

(** [new Date(year, month, date)]: a year from 0 to 99 stands for 1900 + year
    (the two-digit-year rule of the constructor); the time of day is 0. *)
Definition newDate (year month date : Z) : Date :=
  let yr := if (0 <=? year) && (year <=? 99) then 1900 + year else year in
  ES.MakeDate (ES.MakeDay yr month date) 0.

Definition getFullYear (d : Date) : Z := ES.YearFromTime d.
Definition getMonth (d : Date) : Z := ES.MonthFromTime d.
Definition getDate (d : Date) : Z := ES.DateFromTime d.
Definition getTime (d : Date) : Z := d.

(** ** Strings, [split] and [Number] *)

(** A JavaScript number as the script uses it: an integer, or [None] for NaN.
    [undefined], which only arises from destructuring a short array and is
    tested for falsiness before any use, is identified with NaN. *)
Definition JSNumber : Type := option Z.

Definition falsy (x : JSNumber) : bool :=
  match x with
  | None => true
  | Some v => v =? 0
  end.

Definition isDigit (c : ascii) : bool :=
  ((48 <=? nat_of_ascii c) && (nat_of_ascii c <=? 57))%nat.

Definition digitValue (c : ascii) : Z := Z.of_nat (nat_of_ascii c) - 48.

Fixpoint digitsValue (acc : Z) (s : string) : JSNumber :=
  match s with
  | EmptyString => Some acc
  | String c rest =>
      if isDigit c then digitsValue (10 * acc + digitValue c) rest else None
  end.

(** [Number(s)] on the strings the component meets: a run of decimal digits
    is its value and the empty string is 0.  The other numeric literals of
    StringToNumber (surrounding white space, a sign, a fraction or exponent,
    a 0x/0o/0b prefix, Infinity) are outside this fragment and read as NaN
    here; every statement below applies [Number] to digit runs only. *)
Definition Number (s : string) : JSNumber := digitsValue 0 s.

(** [s.split('-')]. *)
Fixpoint split_dash (s : string) : list string :=
  match s with
  | EmptyString => [EmptyString]
  | String c rest =>
      if Ascii.eqb c "-" then EmptyString :: split_dash rest
      else match split_dash rest with
           | p :: ps => String c p :: ps
           | [] => [String c EmptyString]
           end
  end.

(** A matcher for the pieces of [/^\d{4}-\d{2}-\d{2}$/]: each step consumes a
    prefix and returns the rest of the input. *)
Fixpoint matchDigits (n : nat) (s : string) : option string :=
  match n with
  | O => Some s
  | S n' =>
      match s with
      | String c rest => if isDigit c then matchDigits n' rest else None
      | EmptyString => None
      end
  end.

Definition matchDash (s : string) : option string :=
  match s with
  | String c rest => if Ascii.eqb c "-" then Some rest else None
  | EmptyString => None
  end.

Definition matchEnd (s : string) : bool :=
  match s with
  | EmptyString => true
  | String _ _ => false
  end.

Definition andThen {A B} (x : option A) (k : A -> option B) : option B :=
  match x with
  | Some a => k a
  | None => None
  end.

(** [/^\d{4}-\d{2}-\d{2}$/.test(value)]. *)
Definition dateRegexTest (value : string) : bool :=
  match
    andThen (matchDigits 4 value) (fun r1 =>
    andThen (matchDash r1) (fun r2 =>
    andThen (matchDigits 2 r2) (fun r3 =>
    andThen (matchDash r3) (fun r4 =>
    matchDigits 2 r4))))
  with
  | Some r5 => matchEnd r5
  | None => false
  end.

(** ** The component script *)

Definition TOTAL_YEARS : Z := 90.
Definition WEEKS_PER_YEAR : Z := 52.

Record LifeExpectancy : Type := {
  years : Z;
  weeks : Z;
  totalWeeks : Z
}.

Module LIFE_EXPECTANCY.
Definition women : LifeExpectancy :=
  {| years := 81; weeks := 15; totalWeeks := 81 * WEEKS_PER_YEAR + 15 |}.
Definition men : LifeExpectancy :=
  {| years := 76; weeks := 10; totalWeeks := 76 * WEEKS_PER_YEAR + 10 |}.
End LIFE_EXPECTANCY.

(** The two refs the script writes. [today] is captured once and passed
    explicitly to the functions that read it. *)
Record State : Type := {
  birthInput : string;
  hasDobParam : bool
}.

Definition initialState : State :=
  {| birthInput := EmptyString; hasDobParam := false |}.

(** The computed [birthDate], as a function of [birthInput.value]. *)
Definition birthDate (input : string) : option Date :=
  if String.eqb input EmptyString then None
  else
    match map Number (split_dash input) with
    | [year; month; day] =>
        if falsy year || falsy month || falsy day then None
        else
          match year, month, day with
          | Some y, Some m, Some d => Some (newDate y (m - 1) d)
          | _, _, _ => None
          end
    | _ => None
    end.

Definition startOfDay (d : Date) : Date :=
  newDate (getFullYear d) (getMonth d) (getDate d).

Definition getAgeYears (birth onDate : Date) : Z :=
  let age := getFullYear onDate - getFullYear birth in
  let birthMonth := getMonth birth in
  let birthDay := getDate birth in
  let month := getMonth onDate in
  let day := getDate onDate in
  let age :=
    if (month <? birthMonth) || ((month =? birthMonth) && (day <? birthDay))
    then age - 1 else age in
  Z.max 0 age.

Definition lastBirthday (birth onDate : Date) : Date :=
  let age := getAgeYears birth onDate in
  newDate (getFullYear birth + age) (getMonth birth) (getDate birth).

Definition msPerWeek : Z := 1000 * 60 * 60 * 24 * 7.

Definition weeksSinceLastBirthday (birth onDate : Date) : Z :=
  let start := startOfDay (lastBirthday birth onDate) in
  let end_ := startOfDay onDate in
  let diff := getTime end_ - getTime start in
  if diff <=? 0 then 0 else diff / msPerWeek.

(** [isWeekPassed] reads [birthDate.value] and [today.value]; they are its
    first two arguments here. *)
Definition isWeekPassed (birthDateValue : option Date) (todayValue : Date)
    (yearIndex weekIndex : Z) : bool :=
  match birthDateValue with
  | None => false
  | Some birth =>
      let now := todayValue in
      let ageYears := getAgeYears birth now in
      if yearIndex <? ageYears then true
      else if yearIndex >? ageYears then false
      else
        let weeksThisYear :=
          Z.min WEEKS_PER_YEAR (weeksSinceLastBirthday birth now) in
        weekIndex <? weeksThisYear
  end.

Definition isValidDateInput (value : string) : bool :=
  if negb (dateRegexTest value) then false
  else
    let parts := map Number (split_dash value) in
    let y := nth 0 parts None in
    let m := nth 1 parts None in
    let d := nth 2 parts None in
    if falsy y || falsy m || falsy d then false
    else
      match y, m, d with
      | Some y, Some m, Some d =>
          let dt := newDate y (m - 1) d in
          (getFullYear dt =? y) && (getMonth dt =? m - 1) && (getDate dt =? d)
      | _, _, _ => false
      end.

(** [onMounted]: [dob] is the result of [params.get('dob')], [None] for
    [null]; the empty string is falsy. *)
Definition onMounted (dob : option string) (st : State) : State :=
  match dob with
  | Some v =>
      if negb (String.eqb v EmptyString) && isValidDateInput v
      then {| birthInput := v; hasDobParam := true |}
      else st
  | None => st
  end.

(** ** The template *)

(** [v-if="!hasDobParam"] on the picker. *)
Definition pickerShown (st : State) : bool := negb (hasDobParam st).

(** [v-model="birthInput"]: the picker commits a value. *)
Definition pickerInput (v : string) (st : State) : State :=
  {| birthInput := v; hasDobParam := hasDobParam st |}.

(** The three entries of the [:class] array of a cell; [year] and [week] are
    the loop variables of [v-for="year in TOTAL_YEARS"] and
    [v-for="week in WEEKS_PER_YEAR"], which count from 1. *)
Definition fillClass (birthDateValue : option Date) (todayValue : Date)
    (year week : Z) : string :=
  if isWeekPassed birthDateValue todayValue (year - 1) (week - 1)
  then "bg-rose-600" else "bg-neutral-800".

Definition womenMark (year week : Z) : bool :=
  (week =? weeks LIFE_EXPECTANCY.women) && (year =? years LIFE_EXPECTANCY.women).

Definition menMark (year week : Z) : bool :=
  (week =? weeks LIFE_EXPECTANCY.men) && (year =? years LIFE_EXPECTANCY.men).

Definition cellClasses (birthDateValue : option Date) (todayValue : Date)
    (year week : Z) : list string :=
  [ fillClass birthDateValue todayValue year week;
    if womenMark year week then "border-1 border-emerald-500" else EmptyString;
    if menMark year week then "border-1 border-blue-500" else EmptyString ]%string.

(** [v-for="n in N"] iterates 1, 2, ..., N. *)
Definition vFor (n : Z) : list Z := map Z.of_nat (seq 1 (Z.to_nat n)).

(** The loop variables of all cells, row by row. *)
Definition gridCells : list (Z * Z) :=
  flat_map (fun year => map (fun week => (year, week)) (vFor WEEKS_PER_YEAR))
           (vFor TOTAL_YEARS).

(** The state of the component after mounting with query parameter [dob],
    and the birth date the grid is drawn from. *)
Definition mounted (dob : option string) : State := onMounted dob initialState.

Definition birthDateOf (st : State) : option Date := birthDate (birthInput st).

(** ** Vocabulary of the specification *)

(** Calendar order on (year, month, date) triples. *)
Definition ymd_le (a b : Z * Z * Z) : Prop :=
  let '(y1, m1, d1) := a in
  let '(y2, m2, d2) := b in
  y1 < y2 \/ (y1 = y2 /\ (m1 < m2 \/ (m1 = m2 /\ d1 <= d2))).

Definition ymd (d : Date) : Z * Z * Z := (getFullYear d, getMonth d, getDate d).

(** The age before it is floored at zero: the difference of the years, less
    one when the (month, date) of [onDate] is before that of [birth]. *)
Definition rawAge (birth onDate : Date) : Z :=
  getFullYear onDate - getFullYear birth
  - (if (getMonth onDate <? getMonth birth)
        || ((getMonth onDate =? getMonth birth) && (getDate onDate <? getDate birth))
     then 1 else 0).

(** The day number of the [k]-th birth anniversary: birth's month and date
    carried into year [birth.year + k], with the overflow rule of [MakeDay]
    (29 February becomes 1 March in a year without one), and that day at
    local midnight. *)
Definition anniversaryDay (birth : Date) (k : Z) : Z :=
  ES.MakeDay (getFullYear birth + k) (getMonth birth) (getDate birth).

Definition anniversary (birth : Date) (k : Z) : Date :=
  ES.MakeDate (anniversaryDay birth k) 0.

(** The instant at which the local day of [t] begins. *)
Definition localMidnight (t : Date) : Date := ES.MakeDate (ES.Day t) 0.

(** Gregorian leap years and month lengths, written out independently of the
    ECMA-262 tables; months count from 1 here, as in a date string. *)
Definition isLeapYear (y : Z) : bool :=
  ((y mod 4 =? 0) && negb (y mod 100 =? 0)) || (y mod 400 =? 0).

Definition monthLength (y m : Z) : Z :=
  match m with
  | 1 | 3 | 5 | 7 | 8 | 10 | 12 => 31
  | 4 | 6 | 9 | 11 => 30
  | 2 => if isLeapYear y then 29 else 28
  | _ => 0
  end.

Definition validCalendarDate (y m d : Z) : Prop :=
  1 <= m <= 12 /\ 1 <= d <= monthLength y m.

(** Date strings: ten characters, eight of them digits. *)
Definition dateString (a b c d e f g h : ascii) : string :=
  String a (String b (String c (String d (String "-"
  (String e (String f (String "-" (String g (String h EmptyString))))))))).

Definition digitChar (n : Z) : ascii := ascii_of_nat (Z.to_nat (48 + n)).

(** [formatDate y m d] is the text YYYY-MM-DD of a triple, zero padded. *)
Definition formatDate (y m d : Z) : string :=
  dateString (digitChar (y / 1000)) (digitChar (y / 100 mod 10))
             (digitChar (y / 10 mod 10)) (digitChar (y mod 10))
             (digitChar (m / 10)) (digitChar (m mod 10))
             (digitChar (d / 10)) (digitChar (d mod 10)).

(** The numbers that four and two digits spell. *)
Definition number4 (a b c d : ascii) : Z :=
  1000 * digitValue a + 100 * digitValue b + 10 * digitValue c + digitValue d.

Definition number2 (e f : ascii) : Z := 10 * digitValue e + digitValue f.

(** What [isValidDateInput] computes once the three numbers are read. *)
Definition roundTrips (y m d : Z) : bool :=
  let dt := newDate y (m - 1) d in
  (getFullYear dt =? y) && (getMonth dt =? m - 1) && (getDate dt =? d).

(** The grid coordinates (the arguments that [isWeekPassed] receives for a
    cell) of the cells that carry an outline. *)
Definition outlinedCoordinates : list (Z * Z) :=
  map (fun c => (fst c - 1, snd c - 1))
      (filter (fun c => womenMark (fst c) (snd c) || menMark (fst c) (snd c))
              gridCells).

(** Number of dashes in a string. *)
Fixpoint countDashes (s : string) : nat :=
  match s with
  | EmptyString => O
  | String c rest =>
      if Ascii.eqb c "-" then S (countDashes rest) else countDashes rest
  end.

(** Inputs made of decimal digits and dashes only, on which [Number] above
    is exact for every part. *)
Fixpoint digitsAndDashes (s : string) : bool :=
  match s with
  | EmptyString => true
  | String c rest => (isDigit c || Ascii.eqb c "-") && digitsAndDashes rest
  end.

(** The states the component can be in: it starts in [initialState], the
    mount hook may run, and the picker can commit a value only while it is
    shown. *)
Inductive reachable : State -> Prop :=
| reachable_initial : reachable initialState
| reachable_onMounted dob st : reachable st -> reachable (onMounted dob st)
| reachable_pickerInput v st :
    reachable st -> pickerShown st = true -> reachable (pickerInput v st).

(** Number of cells of the grid that are drawn as elapsed (class
    [bg-rose-600]). *)
Definition filledCells (birthDateValue : option Date) (todayValue : Date) : nat :=
  List.length
    (filter (fun c => isWeekPassed birthDateValue todayValue (fst c - 1) (snd c - 1))
            gridCells).

(** ** Calendar lemmas *)

(** Case analysis on a month index bounded in the context: the binary digits
    of [m] are taken apart and the values out of range are closed by [lia]. *)
Ltac month_cases m :=
  destruct m as [|m|m];
  [ | do 4 (try destruct m as [m|m|]) | ];
  try lia.

Ltac leap_cases l :=
  let H := fresh "Hl" in
  assert (H : l = 0 \/ l = 1) by lia; destruct H as [H|H]; subst l.

Lemma leapDays_01 y : ES.leapDays y = 0 \/ ES.leapDays y = 1.
Proof. unfold ES.leapDays. destruct (_ =? _); auto. Qed.

Lemma DaysInYear_leapDays y : ES.DaysInYear y = 365 + ES.leapDays y.
Proof.
  unfold ES.leapDays, ES.DaysInYear.
  repeat (destruct (negb _)); reflexivity.
Qed.

Lemma DayFromYear_succ y : ES.DayFromYear (y + 1) = ES.DayFromYear y + ES.DaysInYear y.
Proof.
  unfold ES.DayFromYear, ES.DaysInYear.
  destruct (Z.eqb_spec (y mod 4) 0), (Z.eqb_spec (y mod 100) 0),
    (Z.eqb_spec (y mod 400) 0); cbn [negb];
    Z.div_mod_to_equations; lia.
Qed.

Lemma DayFromYear_lt a b : a < b -> ES.DayFromYear a + 365 * (b - a) <= ES.DayFromYear b.
Proof. unfold ES.DayFromYear. intros H. Z.div_mod_to_equations. lia. Qed.

Lemma DayFromYear_le a b : a <= b -> ES.DayFromYear a <= ES.DayFromYear b.
Proof.
  intros H. destruct (Z.eq_dec a b) as [->|]; [lia|].
  pose proof (DayFromYear_lt a b). lia.
Qed.

Lemma YearFromDay_spec n :
  ES.DayFromYear (ES.YearFromDay n) <= n < ES.DayFromYear (ES.YearFromDay n + 1).
Proof.
  unfold ES.YearFromDay.
  set (y := 1970 + 400 * n / 146097).
  destruct (Z.leb_spec (ES.DayFromYear (y + 1)) n) as [H1|H1].
  - split; [exact H1|].
    unfold ES.DayFromYear in *. subst y. Z.div_mod_to_equations. lia.
  - destruct (Z.leb_spec (ES.DayFromYear y) n) as [H2|H2].
    + lia.
    + replace (y - 1 + 1) with y by lia. split; [|exact H2].
      unfold ES.DayFromYear in *. subst y. Z.div_mod_to_equations. lia.
Qed.

Lemma YearFromDay_unique n y :
  ES.DayFromYear y <= n < ES.DayFromYear (y + 1) -> ES.YearFromDay n = y.
Proof.
  intros Hy. pose proof (YearFromDay_spec n) as Hs.
  destruct (Z.lt_trichotomy (ES.YearFromDay n) y) as [Hlt|[Heq|Hgt]]; [|exact Heq|].
  - pose proof (DayFromYear_le (ES.YearFromDay n + 1) y). lia.
  - pose proof (DayFromYear_le (y + 1) (ES.YearFromDay n)). lia.
Qed.

Lemma monthStart_step leap m :
  0 <= m <= 11 -> ES.monthStart leap (m + 1) = ES.monthStart leap m + ES.daysInMonth leap m.
Proof. intros. unfold ES.daysInMonth. lia. Qed.

Lemma daysInMonth_bounds leap m :
  0 <= leap <= 1 -> 0 <= m <= 11 -> 28 <= ES.daysInMonth leap m <= 31.
Proof.
  intros Hl Hm. unfold ES.daysInMonth.
  leap_cases leap; month_cases m; cbn; lia.
Qed.

Lemma daysInMonth_leap_change l1 l2 m :
  0 <= l1 <= 1 -> 0 <= l2 <= 1 -> 0 <= m <= 11 ->
  ES.daysInMonth l1 m <= ES.daysInMonth l2 m + 1.
Proof.
  intros H1 H2 Hm. unfold ES.daysInMonth.
  leap_cases l1; leap_cases l2; month_cases m; cbn; lia.
Qed.

Lemma monthStart_mono leap a b :
  0 <= leap <= 1 -> 0 <= a -> a <= b -> b <= 12 ->
  ES.monthStart leap a <= ES.monthStart leap b.
Proof.
  intros Hl Ha Hab Hb.
  assert (Hb' : b = 12 \/ 0 <= b <= 11) by lia.
  leap_cases leap.
  all: destruct Hb' as [->|Hb'];
    [ assert (Ha' : a = 12 \/ 0 <= a <= 11) by lia;
      destruct Ha' as [->|Ha']; [lia|]; month_cases a; cbn; lia
    | month_cases b; month_cases a; cbn; lia ].
Qed.

Lemma monthOfDayWithinYear_spec leap d :
  0 <= leap <= 1 -> 0 <= d < 365 + leap ->
  let m := ES.monthOfDayWithinYear leap d in
  0 <= m <= 11 /\ ES.monthStart leap m <= d < ES.monthStart leap (m + 1).
Proof.
  intros Hl Hd. unfold ES.monthOfDayWithinYear.
  leap_cases leap; cbn in Hd |- *;
  repeat (match goal with |- context [?a <? ?b] => destruct (Z.ltb_spec a b) end);
    cbn; lia.
Qed.

Lemma monthOfDayWithinYear_unique leap d m :
  0 <= leap <= 1 -> 0 <= m <= 11 ->
  ES.monthStart leap m <= d < ES.monthStart leap (m + 1) ->
  ES.monthOfDayWithinYear leap d = m.
Proof.
  intros Hl Hm Hd. unfold ES.monthOfDayWithinYear.
  leap_cases leap; month_cases m; cbn in Hd |- *;
  repeat (match goal with |- context [?a <? ?b] => destruct (Z.ltb_spec a b) end);
    lia.
Qed.

Lemma Day_MakeDate n : ES.Day (ES.MakeDate n 0) = n.
Proof.
  unfold ES.Day, ES.MakeDate, ES.msPerDay. rewrite Z.add_0_r.
  apply Z.div_mul. lia.
Qed.

Lemma MakeDate_Day_le t : ES.MakeDate (ES.Day t) 0 <= t.
Proof.
  unfold ES.Day, ES.MakeDate, ES.msPerDay. Z.div_mod_to_equations. lia.
Qed.

Lemma Day_mono a b : a <= b -> ES.Day a <= ES.Day b.
Proof. intros H. unfold ES.Day, ES.msPerDay. apply Z.div_le_mono; lia. Qed.

(** Every instant falls on a date of the calendar: the components that the
    getters return are in range and add up to the day number. *)
Lemma civil_decomposition t :
  0 <= getMonth t <= 11 /\
  1 <= getDate t <= ES.daysInMonth (ES.leapDays (getFullYear t)) (getMonth t) /\
  ES.Day t = ES.DayFromYear (getFullYear t)
             + ES.monthStart (ES.leapDays (getFullYear t)) (getMonth t)
             + getDate t - 1.
Proof.
  unfold getMonth, getDate, getFullYear, ES.DateFromTime, ES.MonthFromTime,
    ES.InLeapYear, ES.DayWithinYear, ES.YearFromTime.
  set (n := ES.Day t). set (y := ES.YearFromDay n).
  pose proof (YearFromDay_spec n) as Hs. fold y in Hs.
  rewrite DayFromYear_succ, DaysInYear_leapDays in Hs.
  pose proof (leapDays_01 y) as Hl.
  destruct (monthOfDayWithinYear_spec (ES.leapDays y) (n - ES.DayFromYear y))
    as [Hm Hd]; [lia|lia|].
  unfold ES.daysInMonth. lia.
Qed.

(** Conversely, a day number written as a calendar date has exactly those
    components. *)
Lemma civil_unique t y m d :
  0 <= m <= 11 -> 1 <= d <= ES.daysInMonth (ES.leapDays y) m ->
  ES.Day t = ES.DayFromYear y + ES.monthStart (ES.leapDays y) m + d - 1 ->
  getFullYear t = y /\ getMonth t = m /\ getDate t = d.
Proof.
  intros Hm Hd Ht.
  pose proof (leapDays_01 y) as Hl.
  pose proof (monthStart_mono (ES.leapDays y) 0 m).
  pose proof (monthStart_mono (ES.leapDays y) (m + 1) 12).
  unfold ES.daysInMonth in Hd.
  change (ES.monthStart (ES.leapDays y) 0) with 0 in *.
  change (ES.monthStart (ES.leapDays y) 12) with (365 + ES.leapDays y) in *.
  assert (Hy : ES.YearFromDay (ES.Day t) = y).
  { apply YearFromDay_unique.
    rewrite DayFromYear_succ, DaysInYear_leapDays. lia. }
  unfold getFullYear, getMonth, getDate, ES.DateFromTime, ES.MonthFromTime,
    ES.InLeapYear, ES.DayWithinYear, ES.YearFromTime.
  rewrite Hy.
  assert (Hmo : ES.monthOfDayWithinYear (ES.leapDays y)
                  (ES.Day t - ES.DayFromYear y) = m).
  { apply monthOfDayWithinYear_unique; lia. }
  rewrite Hmo. lia.
Qed.

Lemma MakeDay_in_year y m d :
  0 <= m <= 11 ->
  ES.MakeDay y m d = ES.DayFromYear y + ES.monthStart (ES.leapDays y) m + d - 1.
Proof.
  intros Hm. unfold ES.MakeDay.
  rewrite (Z.div_small m 12), (Z.mod_small m 12) by lia.
  rewrite Z.add_0_r. reflexivity.
Qed.

(** The day numbers from [MakeDay y m d] on are exactly the days whose date
    is (y, m, d) or later, also when [d] is one past the end of the month. *)
Lemma day_threshold t y m d :
  0 <= m <= 11 -> 1 <= d <= ES.daysInMonth (ES.leapDays y) m + 1 ->
  ES.MakeDay y m d <= ES.Day t <-> ymd_le (y, m, d) (ymd t).
Proof.
  intros Hm Hd. rewrite MakeDay_in_year by exact Hm.
  destruct (civil_decomposition t) as (HM & HD & Ht).
  unfold ymd, ymd_le.
  set (Y := getFullYear t) in *. set (M := getMonth t) in *.
  set (D := getDate t) in *.
  pose proof (leapDays_01 y) as Hl.
  pose proof (monthStart_mono (ES.leapDays y) 0 m) as H0m.
  change (ES.monthStart (ES.leapDays y) 0) with 0 in H0m.
  destruct (Z.lt_trichotomy Y y) as [Hlt|[Heq|Hgt]].
  - pose proof (leapDays_01 Y) as HlY.
    pose proof (DayFromYear_le (Y + 1) y) as Hle.
    rewrite DayFromYear_succ, DaysInYear_leapDays in Hle.
    pose proof (monthStart_mono (ES.leapDays Y) (M + 1) 12) as Hms.
    change (ES.monthStart (ES.leapDays Y) 12) with (365 + ES.leapDays Y) in Hms.
    unfold ES.daysInMonth in HD. lia.
  - rewrite Heq in *.
    destruct (Z.lt_trichotomy M m) as [Hlm|[Hem|Hgm]].
    + pose proof (monthStart_mono (ES.leapDays y) (M + 1) m) as Hms.
      unfold ES.daysInMonth in HD. lia.
    + rewrite Hem in *. lia.
    + pose proof (monthStart_mono (ES.leapDays y) (m + 1) M) as Hms.
      unfold ES.daysInMonth in Hd. lia.
  - pose proof (leapDays_01 Y) as HlY.
    pose proof (DayFromYear_le (y + 1) Y) as Hle.
    rewrite DayFromYear_succ, DaysInYear_leapDays in Hle.
    pose proof (monthStart_mono (ES.leapDays y) (m + 1) 12) as Hms.
    change (ES.monthStart (ES.leapDays y) 12) with (365 + ES.leapDays y) in Hms.
    pose proof (monthStart_mono (ES.leapDays Y) 0 M) as H0M.
    change (ES.monthStart (ES.leapDays Y) 0) with 0 in H0M.
    unfold ES.daysInMonth in Hd. lia.
Qed.

Lemma getAgeYears_rawAge birth onDate :
  getAgeYears birth onDate = Z.max 0 (rawAge birth onDate).
Proof.
  unfold getAgeYears, rawAge.
  destruct ((getMonth onDate <? getMonth birth)
            || ((getMonth onDate =? getMonth birth)
                && (getDate onDate <? getDate birth))); f_equal; lia.
Qed.

Lemma rawAge_ge birth onDate k :
  k <= rawAge birth onDate <->
  ymd_le (getFullYear birth + k, getMonth birth, getDate birth) (ymd onDate).
Proof.
  unfold rawAge, ymd, ymd_le.
  destruct (Z.ltb_spec (getMonth onDate) (getMonth birth));
    destruct (Z.eqb_spec (getMonth onDate) (getMonth birth));
    destruct (Z.ltb_spec (getDate onDate) (getDate birth));
    cbn [orb andb]; lia.
Qed.

(** The unfloored age reaches [k] exactly from the [k]-th anniversary on. *)
Lemma rawAge_anniversary birth onDate k :
  k <= rawAge birth onDate <-> anniversaryDay birth k <= ES.Day onDate.
Proof.
  rewrite rawAge_ge. unfold anniversaryDay. symmetry.
  destruct (civil_decomposition birth) as (HM & HD & _).
  apply day_threshold; [exact HM|].
  pose proof (daysInMonth_leap_change (ES.leapDays (getFullYear birth))
                (ES.leapDays (getFullYear birth + k)) (getMonth birth)).
  pose proof (leapDays_01 (getFullYear birth)).
  pose proof (leapDays_01 (getFullYear birth + k)).
  lia.
Qed.

Lemma anniversaryDay_0 birth : anniversaryDay birth 0 = ES.Day birth.
Proof.
  destruct (civil_decomposition birth) as (HM & HD & Ht).
  unfold anniversaryDay. rewrite Z.add_0_r, MakeDay_in_year by exact HM.
  lia.
Qed.

Lemma anniversaryDay_lt birth j k :
  j < k -> anniversaryDay birth j < anniversaryDay birth k.
Proof.
  intros Hjk. destruct (civil_decomposition birth) as (HM & HD & _).
  unfold anniversaryDay. rewrite !MakeDay_in_year by exact HM.
  pose proof (DayFromYear_lt (getFullYear birth + j) (getFullYear birth + k)).
  pose proof (leapDays_01 (getFullYear birth + j)) as Hj.
  pose proof (leapDays_01 (getFullYear birth + k)) as Hk.
  assert (Hms : forall l1 l2 m, 0 <= l1 <= 1 -> 0 <= l2 <= 1 -> 0 <= m <= 11 ->
            ES.monthStart l1 m <= ES.monthStart l2 m + 1).
  { intros l1 l2 m H1 H2 Hm. leap_cases l1; leap_cases l2; month_cases m; cbn; lia. }
  specialize (Hms (ES.leapDays (getFullYear birth + j))
                (ES.leapDays (getFullYear birth + k)) (getMonth birth)).
  lia.
Qed.

Lemma rawAge_mono birth t1 t2 : t1 <= t2 -> rawAge birth t1 <= rawAge birth t2.
Proof.
  intros H. apply rawAge_anniversary.
  pose proof (proj1 (rawAge_anniversary birth t1 (rawAge birth t1)) (Z.le_refl _)).
  pose proof (Day_mono t1 t2 H). lia.
Qed.

(** ** Digits and date strings *)

Lemma isDigit_digitChar c :
  isDigit c = true ->
  0 <= digitValue c <= 9 /\ c = digitChar (digitValue c) /\ Ascii.eqb c "-" = false.
Proof.
  destruct c as [[] [] [] [] [] [] [] []]; intros H; try discriminate H;
    vm_compute; intuition congruence.
Qed.

Lemma digitChar_digit n :
  0 <= n <= 9 ->
  isDigit (digitChar n) = true /\ digitValue (digitChar n) = n.
Proof.
  intros H.
  destruct n as [|p|p]; [split; reflexivity| |lia].
  do 4 (try destruct p as [p|p|]); try lia; split; reflexivity.
Qed.

Section DateStrings.
Variables a b c d e f g h : ascii.
Hypothesis Ha : isDigit a = true.
Hypothesis Hb : isDigit b = true.
Hypothesis Hc : isDigit c = true.
Hypothesis Hd : isDigit d = true.
Hypothesis He : isDigit e = true.
Hypothesis Hf : isDigit f = true.
Hypothesis Hg : isDigit g = true.
Hypothesis Hh : isDigit h = true.

Lemma dateString_regex : dateRegexTest (dateString a b c d e f g h) = true.
Proof.
  unfold dateRegexTest, dateString.
  repeat (progress (cbn; rewrite ?Ha, ?Hb, ?Hc, ?Hd, ?He, ?Hf, ?Hg, ?Hh)).
  reflexivity.
Qed.

Lemma dateString_parts :
  map Number (split_dash (dateString a b c d e f g h))
  = [Some (number4 a b c d); Some (number2 e f); Some (number2 g h)].
Proof.
  destruct (isDigit_digitChar a Ha) as (_ & _ & Ea).
  destruct (isDigit_digitChar b Hb) as (_ & _ & Eb).
  destruct (isDigit_digitChar c Hc) as (_ & _ & Ec).
  destruct (isDigit_digitChar d Hd) as (_ & _ & Ed).
  destruct (isDigit_digitChar e He) as (_ & _ & Ee).
  destruct (isDigit_digitChar f Hf) as (_ & _ & Ef).
  destruct (isDigit_digitChar g Hg) as (_ & _ & Eg).
  destruct (isDigit_digitChar h Hh) as (_ & _ & Eh).
  unfold dateString. cbn [split_dash].
  rewrite Ea, Eb, Ec, Ed, Ee, Ef, Eg, Eh.
  change (Ascii.eqb "-" "-") with true. cbn [map].
  unfold Number. cbn [digitsValue].
  rewrite Ha, Hb, Hc, Hd, He, Hf, Hg, Hh.
  unfold number4, number2.
  repeat (apply f_equal2; [apply f_equal; lia|]). reflexivity.
Qed.

Lemma isValidDateInput_dateString :
  isValidDateInput (dateString a b c d e f g h) =
  if (number4 a b c d =? 0) || (number2 e f =? 0) || (number2 g h =? 0)
  then false
  else roundTrips (number4 a b c d) (number2 e f) (number2 g h).
Proof.
  unfold isValidDateInput. rewrite dateString_regex, dateString_parts.
  cbn [negb nth falsy]. unfold roundTrips.
  destruct ((number4 a b c d =? 0) || (number2 e f =? 0) || (number2 g h =? 0));
    exact eq_refl.
Qed.

Lemma birthDate_dateString :
  birthDate (dateString a b c d e f g h) =
  if (number4 a b c d =? 0) || (number2 e f =? 0) || (number2 g h =? 0)
  then None
  else Some (newDate (number4 a b c d) (number2 e f - 1) (number2 g h)).
Proof.
  unfold birthDate. rewrite dateString_parts.
  change (String.eqb (dateString a b c d e f g h) EmptyString) with false.
  cbn [falsy].
  destruct ((number4 a b c d =? 0) || (number2 e f =? 0) || (number2 g h =? 0));
    exact eq_refl.
Qed.

End DateStrings.

(** The strings the regular expression accepts are the date strings. *)
Lemma dateRegexTest_shape s :
  dateRegexTest s = true ->
  exists a b c d e f g h,
    s = dateString a b c d e f g h /\
    isDigit a = true /\ isDigit b = true /\ isDigit c = true /\ isDigit d = true /\
    isDigit e = true /\ isDigit f = true /\ isDigit g = true /\ isDigit h = true.
Proof.
  unfold dateRegexTest, dateString.
  destruct s as [|a [|b [|c [|d [|s1 [|e [|f [|s2 [|g [|h r]]]]]]]]]];
    repeat (cbn;
            match goal with
            | |- context [if isDigit ?x then _ else _] => destruct (isDigit x) eqn:?
            | |- context [if Ascii.eqb ?x "-" then _ else _] =>
                destruct (Ascii.eqb_spec x "-") as [->|]
            end);
    cbn; try discriminate.
  destruct r; cbn; try discriminate.
  intros _. exists a, b, c, d, e, f, g, h. repeat split; assumption.
Qed.

Lemma formatDate_values y m d :
  0 <= y <= 9999 -> 0 <= m <= 99 -> 0 <= d <= 99 ->
  isValidDateInput (formatDate y m d) =
    (if (y =? 0) || (m =? 0) || (d =? 0) then false else roundTrips y m d) /\
  birthDate (formatDate y m d) =
    (if (y =? 0) || (m =? 0) || (d =? 0) then None
     else Some (newDate y (m - 1) d)).
Proof.
  intros Hy Hm Hd. unfold formatDate.
  destruct (digitChar_digit (y / 1000)) as [D1 V1]; [Z.div_mod_to_equations; lia|].
  destruct (digitChar_digit (y / 100 mod 10)) as [D2 V2]; [Z.div_mod_to_equations; lia|].
  destruct (digitChar_digit (y / 10 mod 10)) as [D3 V3]; [Z.div_mod_to_equations; lia|].
  destruct (digitChar_digit (y mod 10)) as [D4 V4]; [Z.div_mod_to_equations; lia|].
  destruct (digitChar_digit (m / 10)) as [D5 V5]; [Z.div_mod_to_equations; lia|].
  destruct (digitChar_digit (m mod 10)) as [D6 V6]; [Z.div_mod_to_equations; lia|].
  destruct (digitChar_digit (d / 10)) as [D7 V7]; [Z.div_mod_to_equations; lia|].
  destruct (digitChar_digit (d mod 10)) as [D8 V8]; [Z.div_mod_to_equations; lia|].
  rewrite isValidDateInput_dateString, birthDate_dateString by assumption.
  unfold number4, number2.
  rewrite V1, V2, V3, V4, V5, V6, V7, V8.
  replace (1000 * (y / 1000) + 100 * (y / 100 mod 10) + 10 * (y / 10 mod 10)
           + y mod 10) with y by (Z.div_mod_to_equations; lia).
  replace (10 * (m / 10) + m mod 10) with m by (Z.div_mod_to_equations; lia).
  replace (10 * (d / 10) + d mod 10) with d by (Z.div_mod_to_equations; lia).
  split; reflexivity.
Qed.

(** Every date string is the formatting of the numbers it spells. *)
Lemma dateString_formatDate a b c d e f g h :
  isDigit a = true -> isDigit b = true -> isDigit c = true -> isDigit d = true ->
  isDigit e = true -> isDigit f = true -> isDigit g = true -> isDigit h = true ->
  exists y m dd,
    0 <= y <= 9999 /\ 0 <= m <= 99 /\ 0 <= dd <= 99 /\
    dateString a b c d e f g h = formatDate y m dd.
Proof.
  intros Ha Hb Hc Hd He Hf Hg Hh.
  destruct (isDigit_digitChar a Ha) as (Ra & Ea & _).
  destruct (isDigit_digitChar b Hb) as (Rb & Eb & _).
  destruct (isDigit_digitChar c Hc) as (Rc & Ec & _).
  destruct (isDigit_digitChar d Hd) as (Rd & Ed & _).
  destruct (isDigit_digitChar e He) as (Re & Ee & _).
  destruct (isDigit_digitChar f Hf) as (Rf & Ef & _).
  destruct (isDigit_digitChar g Hg) as (Rg & Eg & _).
  destruct (isDigit_digitChar h Hh) as (Rh & Eh & _).
  exists (number4 a b c d), (number2 e f), (number2 g h).
  unfold number4, number2.
  repeat (split; [lia|]).
  unfold formatDate.
  rewrite Ea at 1. rewrite Eb at 1. rewrite Ec at 1. rewrite Ed at 1.
  rewrite Ee at 1. rewrite Ef at 1. rewrite Eg at 1. rewrite Eh at 1.
  repeat f_equal; Z.div_mod_to_equations; lia.
Qed.

(** ** Dates built by the constructor *)

Lemma YearFromDay_ge n y : ES.DayFromYear y <= n -> y <= ES.YearFromDay n.
Proof.
  intros H. pose proof (YearFromDay_spec n) as Hs.
  destruct (Z.le_gt_cases y (ES.YearFromDay n)) as [|Hgt]; [assumption|].
  pose proof (DayFromYear_le (ES.YearFromDay n + 1) y). lia.
Qed.

Lemma newDate_plain y m d :
  ~ 0 <= y <= 99 -> newDate y m d = ES.MakeDate (ES.MakeDay y m d) 0.
Proof.
  intros H. unfold newDate.
  destruct (Z.leb_spec 0 y), (Z.leb_spec y 99); cbn [andb]; try reflexivity; lia.
Qed.

Lemma newDate_ymd y m d :
  ~ 0 <= y <= 99 -> 0 <= m <= 11 -> 1 <= d <= ES.daysInMonth (ES.leapDays y) m ->
  ymd (newDate y m d) = (y, m, d).
Proof.
  intros Hy Hm Hd. rewrite newDate_plain by exact Hy.
  destruct (civil_unique (ES.MakeDate (ES.MakeDay y m d) 0) y m d Hm Hd) as (E1 & E2 & E3).
  - rewrite Day_MakeDate. apply MakeDay_in_year. exact Hm.
  - unfold ymd. rewrite E1, E2, E3. reflexivity.
Qed.

Lemma monthLength_daysInMonth y m :
  1 <= m <= 12 -> monthLength y m = ES.daysInMonth (ES.leapDays y) (m - 1).
Proof.
  intros Hm.
  assert (Hl : ES.leapDays y = if isLeapYear y then 1 else 0).
  { unfold ES.leapDays, ES.DaysInYear, isLeapYear.
    destruct (Z.eqb_spec (y mod 4) 0), (Z.eqb_spec (y mod 100) 0),
      (Z.eqb_spec (y mod 400) 0); cbn; try reflexivity;
      exfalso; Z.div_mod_to_equations; lia. }
  rewrite Hl.
  month_cases m; unfold monthLength; destruct (isLeapYear y); reflexivity.
Qed.

(** A triple with a four-digit year of at least 100 that names a day of the
    calendar is reproduced by the constructor. *)
Lemma roundTrips_valid y m d :
  ~ 0 <= y <= 99 -> validCalendarDate y m d ->
  ymd (newDate y (m - 1) d) = (y, m - 1, d) /\ roundTrips y m d = true.
Proof.
  intros Hy [Hm Hd]. rewrite monthLength_daysInMonth in Hd by exact Hm.
  assert (E : ymd (newDate y (m - 1) d) = (y, m - 1, d)).
  { apply newDate_ymd; [exact Hy|lia|exact Hd]. }
  split; [exact E|].
  unfold roundTrips. unfold ymd in E. injection E as E1 E2 E3.
  rewrite E1, E2, E3, !Z.eqb_refl. reflexivity.
Qed.

Lemma newDate_two_digit y m d :
  0 <= y <= 99 -> newDate y m d = ES.MakeDate (ES.MakeDay (1900 + y) m d) 0.
Proof.
  intros H. unfold newDate.
  destruct (Z.leb_spec 0 y), (Z.leb_spec y 99); cbn [andb]; try reflexivity; lia.
Qed.

Lemma newDate_two_digit_year y m d :
  0 <= y <= 99 -> 0 <= m <= 11 -> 1 <= d ->
  1900 + y <= getFullYear (newDate y m d).
Proof.
  intros Hy Hm Hd. rewrite newDate_two_digit by exact Hy.
  unfold getFullYear, ES.YearFromTime. apply YearFromDay_ge.
  rewrite Day_MakeDate, MakeDay_in_year by exact Hm.
  pose proof (leapDays_01 (1900 + y)).
  pose proof (monthStart_mono (ES.leapDays (1900 + y)) 0 m) as Hms.
  change (ES.monthStart (ES.leapDays (1900 + y)) 0) with 0 in Hms. lia.
Qed.

Lemma roundTrips_sound_components y m d dt :
  1 <= y -> 1 <= m -> 1 <= d ->
  (0 <= y <= 99 -> 0 <= m - 1 <= 11 -> 1 <= d -> 1900 + y <= getFullYear dt) ->
  getFullYear dt = y -> getMonth dt = m - 1 -> getDate dt = d ->
  100 <= y /\ validCalendarDate y m d.
Proof.
  intros Hy Hm Hd Hyr H1 H2 H3.
  destruct (civil_decomposition dt) as (RM & RD & _).
  rewrite H1, H2, H3 in RD. rewrite H2 in RM.
  split; [|split; [lia|rewrite monthLength_daysInMonth by lia; exact RD]].
  destruct (Z.le_gt_cases 100 y) as [|Hlt]; [assumption|exfalso].
  specialize (Hyr ltac:(lia) ltac:(lia) ltac:(lia)). lia.
Qed.

Lemma roundTrips_true y m d :
  roundTrips y m d = true ->
  getFullYear (newDate y (m - 1) d) = y /\
  getMonth (newDate y (m - 1) d) = m - 1 /\
  getDate (newDate y (m - 1) d) = d.
Proof.
  unfold roundTrips. generalize (newDate y (m - 1) d). intros dt H.
  apply andb_prop in H as [H H3]. apply andb_prop in H as [H1 H2].
  apply Z.eqb_eq in H1, H2, H3. auto.
Qed.

(** Conversely, positive numbers that the constructor reproduces name a day
    of the calendar, in a year that the two-digit rule leaves alone. *)
Lemma roundTrips_sound y m d :
  1 <= y -> 1 <= m -> 1 <= d -> roundTrips y m d = true ->
  100 <= y /\ validCalendarDate y m d.
Proof.
  intros Hy Hm Hd H.
  destruct (roundTrips_true y m d H) as (H1 & H2 & H3).
  apply (roundTrips_sound_components y m d (newDate y (m - 1) d)); try assumption.
  intros. apply newDate_two_digit_year; assumption.
Qed.

Lemma monthLength_le_31 y m : monthLength y m <= 31.
Proof.
  unfold monthLength.
  destruct m as [|p|p]; try lia.
  do 4 (try destruct p as [p|p|]; try lia); destruct (isLeapYear y); lia.
Qed.

(** ** Validation of the [dob] parameter *)

(** C2 (amended): [isValidDateInput] accepts only strings of the shape four
    digits, dash, two digits, dash, two digits.  For every calendar date with
    a year from 100 to 9999 the string is accepted and the date parsed from
    it has exactly the year, month and day of the triple.  Every string of
    that shape whose numbers are not a calendar date (such as 2023-02-30,
    2023-13-01 and 2023-00-10) is rejected. *)
Theorem isValidDateInput_strict :
  (forall s, isValidDateInput s = true ->
     exists a b c d e f g h,
       s = dateString a b c d e f g h /\
       isDigit a = true /\ isDigit b = true /\ isDigit c = true /\
       isDigit d = true /\ isDigit e = true /\ isDigit f = true /\
       isDigit g = true /\ isDigit h = true) /\
  (forall y m d, 100 <= y <= 9999 -> validCalendarDate y m d ->
     isValidDateInput (formatDate y m d) = true /\
     exists dt, birthDate (formatDate y m d) = Some dt /\
                getFullYear dt = y /\ getMonth dt = m - 1 /\ getDate dt = d) /\
  (forall y m d, 0 <= y <= 9999 -> 0 <= m <= 99 -> 0 <= d <= 99 ->
     ~ validCalendarDate y m d -> isValidDateInput (formatDate y m d) = false) /\
  isValidDateInput "2023-02-30" = false /\
  isValidDateInput "2023-13-01" = false /\
  isValidDateInput "2023-00-10" = false.
Proof.
  split; [|split; [|split]].
  - intros s H. apply dateRegexTest_shape.
    unfold isValidDateInput in H.
    destruct (dateRegexTest s); [reflexivity|discriminate H].
  - intros y m d Hy Hv.
    pose proof (monthLength_le_31 y m) as Hl.
    destruct (formatDate_values y m d) as [E1 E2];
      [lia|unfold validCalendarDate in Hv; lia|unfold validCalendarDate in Hv; lia|].
    destruct (roundTrips_valid y m d) as [Ec Er]; [lia|exact Hv|].
    assert (Hz : (y =? 0) || (m =? 0) || (d =? 0) = false).
    { unfold validCalendarDate in Hv.
      destruct (Z.eqb_spec y 0), (Z.eqb_spec m 0), (Z.eqb_spec d 0);
        cbn; try reflexivity; lia. }
    rewrite E1, E2, Hz. split; [exact Er|].
    exists (newDate y (m - 1) d). unfold ymd in Ec. injection Ec as H1 H2 H3.
    auto.
  - intros y m d Hy Hm Hd Hn.
    destruct (formatDate_values y m d Hy Hm Hd) as [E1 _]. rewrite E1.
    destruct (Z.eqb_spec y 0), (Z.eqb_spec m 0), (Z.eqb_spec d 0);
      cbn [orb]; try reflexivity.
    destruct (roundTrips y m d) eqn:Er; [|reflexivity].
    exfalso. apply Hn. apply (roundTrips_sound y m d); [lia|lia|lia|exact Er].
  - repeat split; vm_compute; reflexivity.
Qed.

Lemma isValidDateInput_strict_witness :
  isValidDateInput (formatDate 2024 2 29) = true /\
  isValidDateInput (formatDate 2023 2 29) = false.
Proof.
  split.
  - apply (proj1 (proj2 isValidDateInput_strict) 2024 2 29).
    + lia.
    + unfold validCalendarDate. change (monthLength 2024 2) with 29. lia.
  - apply (proj1 (proj2 (proj2 isValidDateInput_strict)) 2023 2 29); try lia.
    unfold validCalendarDate. change (monthLength 2023 2) with 28. lia.
Defined.

(** C2 as stated fails: 15 June of the year 50 is a calendar date and its
    string has the accepted shape, but the constructor reads the year 50 as
    1950, so the comparison of the years fails and the string is rejected. *)
Lemma isValidDateInput_rejects_year_50 :
  ~ (forall y m d, 0 <= y <= 9999 -> validCalendarDate y m d ->
       isValidDateInput (formatDate y m d) = true).
Proof.
  intros H. specialize (H 50 6 15).
  assert (Hf : isValidDateInput (formatDate 50 6 15) = false)
    by (vm_compute; reflexivity).
  rewrite Hf in H. 
  assert (Hv : validCalendarDate 50 6 15)
    by (unfold validCalendarDate; change (monthLength 50 6) with 30; lia).
  specialize (H ltac:(lia) Hv). discriminate H.
Qed.

Lemma digitsValue_nonneg s :
  forall acc v, 0 <= acc -> digitsValue acc s = Some v -> 0 <= v.
Proof.
  induction s as [|c s IH]; intros acc v Hacc H; cbn [digitsValue] in H.
  - injection H as <-. exact Hacc.
  - destruct (isDigit c) eqn:E; [|discriminate H].
    apply IH in H; [exact H|].
    destruct (isDigit_digitChar c E) as (R & _). lia.
Qed.

Lemma MakeDay_lower year month date :
  0 <= month -> 1 <= date -> ES.DayFromYear year <= ES.MakeDay year month date.
Proof.
  intros Hm Hd. unfold ES.MakeDay. cbv zeta.
  pose proof (DayFromYear_le year (year + month / 12)) as Hy.
  pose proof (leapDays_01 (year + month / 12)) as Hl.
  pose proof (monthStart_mono (ES.leapDays (year + month / 12)) 0 (month mod 12)) as Hms.
  change (ES.monthStart (ES.leapDays (year + month / 12)) 0) with 0 in Hms.
  assert (0 <= month / 12) by (apply Z.div_pos; lia).
  assert (0 <= month mod 12 < 12) by (apply Z.mod_pos_bound; lia).
  lia.
Qed.

(** Every date that [birthDate] builds lies in the year 100 or later. *)
Lemma birthDate_year s birth : birthDate s = Some birth -> 100 <= getFullYear birth.
Proof.
  unfold birthDate. destruct (String.eqb s EmptyString); [discriminate|].
  destruct (split_dash s) as [|p1 [|p2 [|p3 [|p4 l]]]]; cbn [map]; try discriminate.
  destruct (Number p1) as [y|] eqn:E1, (Number p2) as [m|] eqn:E2,
    (Number p3) as [d|] eqn:E3;
    destruct (falsy _ || falsy _ || falsy _) eqn:F; try discriminate.
  intros [= <-]. cbn [falsy] in F.
  apply orb_false_elim in F as [F F3]. apply orb_false_elim in F as [F1 F2].
  apply Z.eqb_neq in F1, F2, F3.
  apply (digitsValue_nonneg p1 0 y (Z.le_refl 0)) in E1.
  apply (digitsValue_nonneg p2 0 m (Z.le_refl 0)) in E2.
  apply (digitsValue_nonneg p3 0 d (Z.le_refl 0)) in E3.
  unfold newDate, getFullYear, ES.YearFromTime. cbv zeta.
  rewrite Day_MakeDate.
  set (yr := if (0 <=? y) && (y <=? 99) then 1900 + y else y).
  assert (Hyr : 100 <= yr).
  { unfold yr. destruct (Z.leb_spec 0 y), (Z.leb_spec y 99); cbn [andb]; lia. }
  pose proof (YearFromDay_ge (ES.MakeDay yr (m - 1) d) yr
                (MakeDay_lower yr (m - 1) d ltac:(lia) ltac:(lia))).
  lia.
Qed.

(** ** Midnights, anniversaries and the last birthday *)

Lemma MakeDate_le_iff n t : ES.MakeDate n 0 <= t <-> n <= ES.Day t.
Proof.
  unfold ES.MakeDate, ES.Day, ES.msPerDay. split; intros H.
  - Z.div_mod_to_equations. lia.
  - Z.div_mod_to_equations. lia.
Qed.

Lemma localMidnight_le t : localMidnight t <= t.
Proof. apply MakeDate_Day_le. Qed.

Lemma localMidnight_mono a b : a <= b -> localMidnight a <= localMidnight b.
Proof.
  intros H. unfold localMidnight. apply MakeDate_le_iff.
  rewrite Day_MakeDate. apply Day_mono. exact H.
Qed.

Lemma getFullYear_mono a b : a <= b -> getFullYear a <= getFullYear b.
Proof.
  intros H. unfold getFullYear, ES.YearFromTime. apply YearFromDay_ge.
  pose proof (YearFromDay_spec (ES.Day a)). pose proof (Day_mono a b H). lia.
Qed.

(** The getters read the day number only. *)
Lemma ymd_same_day a b : ES.Day a = ES.Day b -> ymd a = ymd b.
Proof.
  intros H.
  unfold ymd, getFullYear, getMonth, getDate, ES.DateFromTime, ES.MonthFromTime,
    ES.InLeapYear, ES.DayWithinYear, ES.YearFromTime.
  rewrite H. reflexivity.
Qed.

Lemma startOfDay_localMidnight t :
  ~ 0 <= getFullYear t <= 99 -> startOfDay t = localMidnight t.
Proof.
  intros Hy. unfold startOfDay, localMidnight.
  destruct (civil_decomposition t) as (HM & HD & Ht).
  rewrite newDate_plain by exact Hy.
  rewrite MakeDay_in_year by exact HM. rewrite Ht. reflexivity.
Qed.

Lemma Day_anniversary birth k : ES.Day (anniversary birth k) = anniversaryDay birth k.
Proof. apply Day_MakeDate. Qed.

Lemma anniversary_le_iff birth k t :
  anniversary birth k <= t <-> anniversaryDay birth k <= ES.Day t.
Proof. apply MakeDate_le_iff. Qed.

Lemma day_offset_in_year l1 l2 m d :
  0 <= l1 <= 1 -> 0 <= l2 <= 1 -> 0 <= m <= 11 -> 1 <= d <= ES.daysInMonth l1 m ->
  0 <= ES.monthStart l2 m + d - 1 < 365 + l2.
Proof.
  intros H1 H2 Hm Hd. unfold ES.daysInMonth in Hd.
  leap_cases l1; leap_cases l2; month_cases m; cbn in Hd; cbn [ES.monthStart]; lia.
Qed.

Lemma getFullYear_anniversary birth k :
  getFullYear (anniversary birth k) = getFullYear birth + k.
Proof.
  destruct (civil_decomposition birth) as (HM & HD & _).
  unfold getFullYear at 1. unfold ES.YearFromTime.
  rewrite Day_anniversary. apply YearFromDay_unique.
  unfold anniversaryDay. rewrite MakeDay_in_year by exact HM.
  rewrite DayFromYear_succ, DaysInYear_leapDays.
  pose proof (day_offset_in_year (ES.leapDays (getFullYear birth))
                (ES.leapDays (getFullYear birth + k)) (getMonth birth)
                (getDate birth) (ltac:(pose proof (leapDays_01 (getFullYear birth)); lia))
                (ltac:(pose proof (leapDays_01 (getFullYear birth + k)); lia))
                HM HD).
  lia.
Qed.

(** In a year that has the date, the anniversary is that date. *)
Lemma ymd_anniversary birth k :
  getDate birth <= ES.daysInMonth (ES.leapDays (getFullYear birth + k)) (getMonth birth) ->
  ymd (anniversary birth k) = (getFullYear birth + k, getMonth birth, getDate birth).
Proof.
  intros Hd. destruct (civil_decomposition birth) as (HM & HD & _).
  destruct (civil_unique (anniversary birth k) (getFullYear birth + k)
              (getMonth birth) (getDate birth)) as (E1 & E2 & E3);
    [exact HM|lia| |].
  - rewrite Day_anniversary. unfold anniversaryDay.
    apply MakeDay_in_year. exact HM.
  - unfold ymd. rewrite E1, E2, E3. reflexivity.
Qed.

Lemma lastBirthday_anniversary birth onDate :
  ~ 0 <= getFullYear birth + getAgeYears birth onDate <= 99 ->
  lastBirthday birth onDate = anniversary birth (getAgeYears birth onDate).
Proof.
  intros H. unfold lastBirthday, anniversary, anniversaryDay. cbv zeta.
  apply newDate_plain. exact H.
Qed.

Lemma getAgeYears_nonneg birth onDate : 0 <= getAgeYears birth onDate.
Proof. rewrite getAgeYears_rawAge. lia. Qed.

Lemma getAgeYears_mono birth t1 t2 :
  t1 <= t2 -> getAgeYears birth t1 <= getAgeYears birth t2.
Proof.
  intros H. rewrite !getAgeYears_rawAge.
  pose proof (rawAge_mono birth t1 t2 H). lia.
Qed.

(** From the first anniversary on, the age reaches [k] exactly at the [k]-th
    anniversary. *)
Lemma getAgeYears_ge birth onDate k :
  1 <= k -> (k <= getAgeYears birth onDate <-> anniversary birth k <= onDate).
Proof.
  intros Hk. rewrite anniversary_le_iff, <- rawAge_anniversary, getAgeYears_rawAge.
  lia.
Qed.

Lemma Day_day_before n : ES.Day (ES.MakeDate n 0 - ES.msPerDay) = n - 1.
Proof.
  unfold ES.Day, ES.MakeDate, ES.msPerDay.
  replace (n * 86400000 + 0 - 86400000) with ((n - 1) * 86400000) by lia.
  apply Z.div_mul. lia.
Qed.

Lemma rawAge_self birth : rawAge birth birth = 0.
Proof.
  unfold rawAge. rewrite !Z.ltb_irrefl, Z.eqb_refl. cbn [orb andb]. lia.
Qed.

Lemma rawAge_at_anniversary birth k : rawAge birth (anniversary birth k) = k.
Proof.
  pose proof (rawAge_anniversary birth (anniversary birth k) k) as H1.
  pose proof (rawAge_anniversary birth (anniversary birth k) (k + 1)) as H2.
  rewrite Day_anniversary in H1, H2.
  pose proof (anniversaryDay_lt birth k (k + 1)). lia.
Qed.

Lemma Day_before_anniversary birth k :
  ES.Day (anniversary birth k - ES.msPerDay) = anniversaryDay birth k - 1.
Proof. exact (Day_day_before (anniversaryDay birth k)). Qed.

Lemma rawAge_day_before_anniversary birth k :
  rawAge birth (anniversary birth k - ES.msPerDay) = k - 1.
Proof.
  pose proof (rawAge_anniversary birth (anniversary birth k - ES.msPerDay) k) as H1.
  pose proof (rawAge_anniversary birth (anniversary birth k - ES.msPerDay) (k - 1)) as H2.
  rewrite Day_before_anniversary in H1, H2.
  pose proof (anniversaryDay_lt birth (k - 1) k). lia.
Qed.

Lemma weeksSinceLastBirthday_nonneg birth onDate :
  0 <= weeksSinceLastBirthday birth onDate.
Proof.
  unfold weeksSinceLastBirthday. cbv zeta.
  destruct (Z.leb_spec
              (getTime (startOfDay onDate)
               - getTime (startOfDay (lastBirthday birth onDate))) 0); [lia|].
  apply Z.div_pos; [lia|reflexivity].
Qed.

Lemma weeksSinceLastBirthday_mono birth t1 t2 :
  getAgeYears birth t1 = getAgeYears birth t2 ->
  startOfDay t1 <= startOfDay t2 ->
  weeksSinceLastBirthday birth t1 <= weeksSinceLastBirthday birth t2.
Proof.
  intros Ha Hs. unfold weeksSinceLastBirthday, lastBirthday, getTime. cbv zeta.
  rewrite Ha.
  set (lb := startOfDay (newDate (getFullYear birth + getAgeYears birth t2)
                            (getMonth birth) (getDate birth))).
  destruct (Z.leb_spec (startOfDay t1 - lb) 0), (Z.leb_spec (startOfDay t2 - lb) 0);
    try lia.
  - apply Z.div_pos; [lia|reflexivity].
  - apply Z.div_le_mono; [reflexivity|lia].
Qed.

(** ** The age *)

(** C5: the age is the difference of the years, less one when the (month,
    day) of [onDate] is before that of [birth], floored at zero: it is never
    negative and is zero for every [onDate] up to the birth itself.  From the
    first anniversary on the age reaches [k] exactly at the [k]-th
    anniversary; it is [k] on that anniversary and [k - 1] one day before. *)
Theorem getAgeYears_anniversaries (birth onDate : Date) :
  getAgeYears birth onDate = Z.max 0 (rawAge birth onDate) /\
  0 <= getAgeYears birth onDate /\
  (onDate <= birth -> getAgeYears birth onDate = 0) /\
  getAgeYears birth birth = 0 /\
  (forall k, 1 <= k ->
     (k <= getAgeYears birth onDate <-> anniversary birth k <= onDate) /\
     getAgeYears birth (anniversary birth k) = k /\
     getAgeYears birth (anniversary birth k - ES.msPerDay) = k - 1).
Proof.
  split; [apply getAgeYears_rawAge|].
  split; [apply getAgeYears_nonneg|].
  split.
  { intros H. rewrite getAgeYears_rawAge.
    pose proof (rawAge_mono birth onDate birth H). rewrite rawAge_self in *. lia. }
  split; [rewrite getAgeYears_rawAge, rawAge_self; reflexivity|].
  intros k Hk. split; [apply getAgeYears_ge; exact Hk|].
  rewrite !getAgeYears_rawAge, rawAge_at_anniversary, rawAge_day_before_anniversary.
  lia.
Qed.

Lemma getAgeYears_anniversaries_witness :
  getAgeYears (newDate 2000 1 29) (anniversary (newDate 2000 1 29) 1) = 1 /\
  getAgeYears (newDate 2000 1 29)
    (anniversary (newDate 2000 1 29) 1 - ES.msPerDay) = 1 - 1.
Proof.
  apply (proj2 (proj2 (proj2 (proj2
    (getAgeYears_anniversaries (newDate 2000 1 29) (newDate 2010 0 1))))) 1).
  lia.
Defined.

(** ** The last birthday *)

(** C6 (amended): for a birth date in the year 100 or later, as every date
    [birthDate] builds is, and every [onDate], [lastBirthday] is the
    anniversary in the year [birth.year + age]: local midnight of birth's
    (month, day) in that year where the year has that day (29 February
    otherwise moves to 1 March).  Whenever [onDate] is not before the day of
    birth, it is not after [onDate], and when [onDate] has birth's
    (month, day) it is the midnight that begins [onDate]. *)
Theorem lastBirthday_on_or_before (birth onDate : Date) :
  100 <= getFullYear birth ->
  lastBirthday birth onDate = anniversary birth (getAgeYears birth onDate) /\
  getFullYear (lastBirthday birth onDate)
    = getFullYear birth + getAgeYears birth onDate /\
  (getDate birth
     <= ES.daysInMonth (ES.leapDays (getFullYear birth + getAgeYears birth onDate))
          (getMonth birth) ->
   getMonth (lastBirthday birth onDate) = getMonth birth /\
   getDate (lastBirthday birth onDate) = getDate birth) /\
  (localMidnight birth <= onDate ->
   lastBirthday birth onDate <= onDate /\
   (getMonth onDate = getMonth birth -> getDate onDate = getDate birth ->
    lastBirthday birth onDate = localMidnight onDate)).
Proof.
  intros Hy.
  pose proof (getAgeYears_nonneg birth onDate) as Hage.
  assert (Hlb : lastBirthday birth onDate = anniversary birth (getAgeYears birth onDate))
    by (apply lastBirthday_anniversary; lia).
  rewrite Hlb. split; [reflexivity|].
  split; [apply getFullYear_anniversary|].
  split.
  { intros Hd. pose proof (ymd_anniversary birth _ Hd) as E.
    unfold ymd in E. injection E as _ E2 E3. auto. }
  intros Hb.
  assert (Hraw : 0 <= rawAge birth onDate).
  { apply rawAge_anniversary. rewrite anniversaryDay_0.
    apply MakeDate_le_iff. exact Hb. }
  assert (Hage' : getAgeYears birth onDate = rawAge birth onDate)
    by (rewrite getAgeYears_rawAge; lia).
  split.
  { apply anniversary_le_iff. apply rawAge_anniversary. lia. }
  intros Em Ed. unfold anniversary, localMidnight. f_equal.
  destruct (civil_decomposition onDate) as (HM & HD & Ht).
  unfold anniversaryDay. rewrite <- Em, <- Ed, MakeDay_in_year by exact HM.
  assert (Ey : getFullYear birth + getAgeYears birth onDate = getFullYear onDate).
  { rewrite Hage'. unfold rawAge. rewrite Em, Ed, !Z.ltb_irrefl, Z.eqb_refl.
    cbn [orb andb]. lia. }
  rewrite Ey. lia.
Qed.

Lemma lastBirthday_on_or_before_witness :
  getFullYear (lastBirthday (newDate 2000 5 15) (newDate 1999 0 1))
    = getFullYear (newDate 2000 5 15)
      + getAgeYears (newDate 2000 5 15) (newDate 1999 0 1) /\
  lastBirthday (newDate 2000 5 15) (newDate 2005 5 15 + 3600000)
    <= newDate 2005 5 15 + 3600000.
Proof.
  split.
  - apply (lastBirthday_on_or_before (newDate 2000 5 15) (newDate 1999 0 1)).
    vm_compute. discriminate.
  - apply (proj2 (proj2 (proj2
      (lastBirthday_on_or_before (newDate 2000 5 15) (newDate 2005 5 15 + 3600000)
         ltac:(vm_compute; discriminate))))).
    vm_compute. discriminate.
Defined.

(** C6 as stated fails when [onDate] is before the birth: the age is floored
    at zero, so the last birthday is the birth itself, which is after
    [onDate]. *)
Lemma lastBirthday_after_onDate :
  birthDate "2000-06-15" = Some (newDate 2000 5 15) /\
  ymd (newDate 1999 0 1) = (1999, 0, 1) /\
  ~ lastBirthday (newDate 2000 5 15) (newDate 1999 0 1) <= newDate 1999 0 1.
Proof.
  split; [vm_compute; reflexivity|]. split; [vm_compute; reflexivity|].
  vm_compute. intros H. apply H. reflexivity.
Qed.

(** ** Weeks since the last birthday *)

(** C7: [weeksSinceLastBirthday] is the floor of the span from the start of
    the day of the last birthday to the start of the day of [onDate], divided
    by seven days, when that span is positive, and 0 when the span is zero or
    negative; it is never negative.  For dates from the year 100 on, the two
    starts of day are the local midnights of the two instants. *)
Theorem weeksSinceLastBirthday_floor (birth onDate : Date) :
  (0 < getTime (startOfDay onDate)
       - getTime (startOfDay (lastBirthday birth onDate)) ->
   weeksSinceLastBirthday birth onDate
   = (getTime (startOfDay onDate)
      - getTime (startOfDay (lastBirthday birth onDate))) / (7 * ES.msPerDay)) /\
  (getTime (startOfDay onDate)
     - getTime (startOfDay (lastBirthday birth onDate)) <= 0 ->
   weeksSinceLastBirthday birth onDate = 0) /\
  0 <= weeksSinceLastBirthday birth onDate /\
  (100 <= getFullYear birth -> 100 <= getFullYear onDate ->
   startOfDay onDate = localMidnight onDate /\
   startOfDay (lastBirthday birth onDate)
   = localMidnight (lastBirthday birth onDate) /\
   localMidnight (lastBirthday birth onDate) = lastBirthday birth onDate).
Proof.
  split; [|split; [|split]].
  - intros H. unfold weeksSinceLastBirthday. cbv zeta.
    destruct (Z.leb_spec
                (getTime (startOfDay onDate)
                 - getTime (startOfDay (lastBirthday birth onDate))) 0); [lia|].
    reflexivity.
  - intros H. unfold weeksSinceLastBirthday. cbv zeta.
    destruct (Z.leb_spec
                (getTime (startOfDay onDate)
                 - getTime (startOfDay (lastBirthday birth onDate))) 0); [|lia].
    reflexivity.
  - apply weeksSinceLastBirthday_nonneg.
  - intros Hb Ho.
    pose proof (getAgeYears_nonneg birth onDate) as Hage.
    assert (Hlb : lastBirthday birth onDate
                  = anniversary birth (getAgeYears birth onDate))
      by (apply lastBirthday_anniversary; lia).
    split; [apply startOfDay_localMidnight; lia|].
    rewrite Hlb. split.
    + apply startOfDay_localMidnight. rewrite getFullYear_anniversary. lia.
    + unfold localMidnight, anniversary. rewrite Day_MakeDate. reflexivity.
Qed.

Lemma weeksSinceLastBirthday_floor_witness :
  weeksSinceLastBirthday (newDate 2000 0 1) (newDate 2000 0 8 + 5000)
  = (getTime (startOfDay (newDate 2000 0 8 + 5000))
     - getTime (startOfDay (lastBirthday (newDate 2000 0 1) (newDate 2000 0 8 + 5000))))
    / (7 * ES.msPerDay).
Proof.
  apply (proj1 (weeksSinceLastBirthday_floor (newDate 2000 0 1) (newDate 2000 0 8 + 5000))).
  vm_compute. reflexivity.
Defined.

(** ** The grid *)

(** C1: without a birth date [isWeekPassed] is false; with one, a row
    before the age is true, a row after the age is false, and on the row of
    the age the cell is true exactly when its week index is below the weeks
    since the last birthday, capped at 52. *)
Theorem isWeekPassed_cases (birth now : Date) (yearIndex weekIndex : Z) :
  isWeekPassed None now yearIndex weekIndex = false /\
  (yearIndex < getAgeYears birth now ->
   isWeekPassed (Some birth) now yearIndex weekIndex = true) /\
  (yearIndex > getAgeYears birth now ->
   isWeekPassed (Some birth) now yearIndex weekIndex = false) /\
  (yearIndex = getAgeYears birth now ->
   isWeekPassed (Some birth) now yearIndex weekIndex
   = (weekIndex <? Z.min 52 (weeksSinceLastBirthday birth now))).
Proof.
  split; [reflexivity|].
  unfold isWeekPassed. cbv zeta. rewrite Z.gtb_ltb.
  generalize (getAgeYears birth now) (weeksSinceLastBirthday birth now).
  intros age wk.
  destruct (Z.ltb_spec yearIndex age), (Z.ltb_spec age yearIndex);
    repeat split; intros; try reflexivity; lia.
Qed.

Lemma isWeekPassed_cases_witness :
  isWeekPassed (Some (newDate 2000 0 1)) (newDate 2005 5 15) 3 0 = true /\
  isWeekPassed (Some (newDate 2000 0 1)) (newDate 2005 5 15) 7 0 = false /\
  isWeekPassed (Some (newDate 2000 0 1)) (newDate 2005 5 15) 5 30
  = (30 <? Z.min 52 (weeksSinceLastBirthday (newDate 2000 0 1) (newDate 2005 5 15))).
Proof.
  split; [|split].
  - apply (proj1 (proj2 (isWeekPassed_cases (newDate 2000 0 1) (newDate 2005 5 15) 3 0))).
    vm_compute. reflexivity.
  - apply (proj1 (proj2 (proj2
      (isWeekPassed_cases (newDate 2000 0 1) (newDate 2005 5 15) 7 0)))).
    vm_compute. reflexivity.
  - apply (proj2 (proj2 (proj2
      (isWeekPassed_cases (newDate 2000 0 1) (newDate 2005 5 15) 5 30)))).
    vm_compute. reflexivity.
Defined.

(** From the year 100 on, where the constructor takes the year as written,
    a cell that is elapsed at [now1] is elapsed at every later [now2]. *)
Lemma isWeekPassed_monotone_from_year_100 (birth now1 now2 : Date)
    (yearIndex weekIndex : Z) :
  100 <= getFullYear now1 -> now1 < now2 ->
  isWeekPassed (Some birth) now1 yearIndex weekIndex = true ->
  isWeekPassed (Some birth) now2 yearIndex weekIndex = true.
Proof.
  intros Hy Hlt.
  pose proof (getAgeYears_mono birth now1 now2 (Z.lt_le_incl _ _ Hlt)) as Hage.
  pose proof (weeksSinceLastBirthday_mono birth now1 now2) as Hwk.
  assert (Hs : startOfDay now1 <= startOfDay now2).
  { pose proof (getFullYear_mono now1 now2 (Z.lt_le_incl _ _ Hlt)).
    rewrite !startOfDay_localMidnight by lia.
    apply localMidnight_mono. lia. }
  specialize (fun E => Hwk E Hs). clear Hs Hy.
  unfold isWeekPassed. cbv zeta. rewrite !Z.gtb_ltb.
  revert Hage Hwk.
  generalize (getAgeYears birth now1) (getAgeYears birth now2)
    (weeksSinceLastBirthday birth now1) (weeksSinceLastBirthday birth now2).
  intros a1 a2 w1 w2 Hage Hwk.
  destruct (Z.ltb_spec yearIndex a1), (Z.ltb_spec a1 yearIndex),
    (Z.ltb_spec yearIndex a2), (Z.ltb_spec a2 yearIndex);
    try reflexivity; try discriminate; try lia.
Qed.

Lemma getFullYear_since_epoch t : 0 <= t -> 1970 <= getFullYear t.
Proof.
  intros H. pose proof (getFullYear_mono 0 t H) as Hm.
  change (getFullYear 0) with 1970 in Hm. exact Hm.
Qed.

(** C3: [today] holds a reading of the clock, an instant at or after the
    epoch.  For every birth date and every two such instants [now1 < now2],
    every cell that is elapsed at [now1] is elapsed at [now2]. *)
Theorem isWeekPassed_monotone (birth now1 now2 : Date) (yearIndex weekIndex : Z) :
  0 <= now1 -> now1 < now2 ->
  isWeekPassed (Some birth) now1 yearIndex weekIndex = true ->
  isWeekPassed (Some birth) now2 yearIndex weekIndex = true.
Proof.
  intros H0. apply isWeekPassed_monotone_from_year_100.
  pose proof (getFullYear_since_epoch now1 H0). lia.
Qed.

Lemma isWeekPassed_monotone_witness :
  isWeekPassed (Some (newDate 2000 0 1)) (newDate 2001 1 8) 0 0 = true.
Proof.
  apply (isWeekPassed_monotone (newDate 2000 0 1) (newDate 2000 0 8) (newDate 2001 1 8) 0 0).
  - vm_compute. discriminate.
  - vm_compute. reflexivity.
  - vm_compute. reflexivity.
Defined.

(** The bound on the instants matters only in the years 0 to 99, which
    [today] never holds: there [startOfDay] rebuilds the day through the
    constructor and lands in the years 1900 to 1999.  With birth 0150-01-01,
    at midnight of 1 January 60 the start of the day is taken to be
    1 January 1960, after the birth, and the cell (0,0) counts as elapsed;
    at midnight of 1 January 120, a later instant, it does not. *)
Lemma startOfDay_two_digit_years_not_monotone :
  birthDate "0150-01-01" = Some (newDate 150 0 1) /\
  ymd (-60273763200000) = (60, 0, 1) /\
  ymd (-58380393600000) = (120, 0, 1) /\
  -60273763200000 < -58380393600000 /\
  isWeekPassed (Some (newDate 150 0 1)) (-60273763200000) 0 0 = true /\
  isWeekPassed (Some (newDate 150 0 1)) (-58380393600000) 0 0 = false.
Proof. repeat split; vm_compute; reflexivity. Qed.

Lemma Day_add_time n tod :
  0 <= tod < ES.msPerDay -> ES.Day (ES.MakeDate n 0 + tod) = n.
Proof.
  unfold ES.Day, ES.MakeDate, ES.msPerDay. intros H.
  Z.div_mod_to_equations. lia.
Qed.

Lemma getAgeYears_same_day birth a b :
  ES.Day a = ES.Day b -> getAgeYears birth a = getAgeYears birth b.
Proof.
  intros H. pose proof (ymd_same_day a b H) as E. unfold ymd in E.
  injection E as E1 E2 E3. unfold getAgeYears. rewrite E1, E2, E3. reflexivity.
Qed.

Lemma startOfDay_same_day a b : ES.Day a = ES.Day b -> startOfDay a = startOfDay b.
Proof.
  intros H. pose proof (ymd_same_day a b H) as E. unfold ymd in E.
  injection E as E1 E2 E3. unfold startOfDay. rewrite E1, E2, E3. reflexivity.
Qed.

Lemma weeksSinceLastBirthday_same_day birth a b :
  ES.Day a = ES.Day b ->
  weeksSinceLastBirthday birth a = weeksSinceLastBirthday birth b.
Proof.
  intros H. unfold weeksSinceLastBirthday, lastBirthday.
  rewrite (getAgeYears_same_day birth a b H), (startOfDay_same_day a b H).
  reflexivity.
Qed.

(** The grid only depends on the day of the observation instant. *)
Lemma isWeekPassed_same_day bd a b y w :
  ES.Day a = ES.Day b -> isWeekPassed bd a y w = isWeekPassed bd b y w.
Proof.
  intros H. destruct bd as [birth|]; [|reflexivity].
  unfold isWeekPassed.
  rewrite (getAgeYears_same_day birth a b H),
    (weeksSinceLastBirthday_same_day birth a b H).
  reflexivity.
Qed.

(** C4: with birth 2000-01-01, at any instant of 2000-01-01 every cell of
    the 90 by 52 grid is not elapsed; at any instant of 2000-01-08 the cell
    (0,0) is elapsed and the cell (0,1) is not. *)
Theorem scenario_born_2000_01_01 (tod yearIndex weekIndex : Z) :
  0 <= tod < ES.msPerDay ->
  birthDate "2000-01-01" = Some (newDate 2000 0 1) /\
  (0 <= yearIndex < TOTAL_YEARS -> 0 <= weekIndex < WEEKS_PER_YEAR ->
   isWeekPassed (birthDate "2000-01-01") (newDate 2000 0 1 + tod)
     yearIndex weekIndex = false) /\
  isWeekPassed (birthDate "2000-01-01") (newDate 2000 0 8 + tod) 0 0 = true /\
  isWeekPassed (birthDate "2000-01-01") (newDate 2000 0 8 + tod) 0 1 = false.
Proof.
  intros Htod.
  assert (Eb : birthDate "2000-01-01" = Some (newDate 2000 0 1))
    by (vm_compute; reflexivity).
  rewrite Eb. split; [reflexivity|].
  assert (E1 : newDate 2000 0 1 = ES.MakeDate 10957 0) by (vm_compute; reflexivity).
  assert (E8 : newDate 2000 0 8 = ES.MakeDate 10964 0) by (vm_compute; reflexivity).
  assert (D1 : ES.Day (newDate 2000 0 1 + tod) = ES.Day (newDate 2000 0 1)).
  { rewrite E1, Day_add_time, Day_MakeDate by exact Htod. reflexivity. }
  assert (D8 : ES.Day (newDate 2000 0 8 + tod) = ES.Day (newDate 2000 0 8)).
  { rewrite E8, Day_add_time, Day_MakeDate by exact Htod. reflexivity. }
  rewrite (isWeekPassed_same_day _ _ _ yearIndex weekIndex D1).
  rewrite (isWeekPassed_same_day _ _ _ 0 0 D8), (isWeekPassed_same_day _ _ _ 0 1 D8).
  split; [|split; vm_compute; reflexivity].
  intros Hy Hw.
  assert (Ha : getAgeYears (newDate 2000 0 1) (newDate 2000 0 1) = 0)
    by (vm_compute; reflexivity).
  assert (Hk : weeksSinceLastBirthday (newDate 2000 0 1) (newDate 2000 0 1) = 0)
    by (vm_compute; reflexivity).
  unfold isWeekPassed. cbv zeta. rewrite Ha, Hk.
  unfold TOTAL_YEARS, WEEKS_PER_YEAR in *.
  destruct (Z.ltb_spec yearIndex 0); [lia|].
  destruct (yearIndex >? 0); [reflexivity|].
  apply Z.ltb_ge. lia.
Qed.

Lemma scenario_born_2000_01_01_witness :
  isWeekPassed (birthDate "2000-01-01") (newDate 2000 0 1 + 3600000) 10 20 = false.
Proof.
  apply (proj1 (proj2 (scenario_born_2000_01_01 3600000 10 20 ltac:(vm_compute; split; [discriminate|reflexivity])))).
  - vm_compute. split; [discriminate|reflexivity].
  - vm_compute. split; [discriminate|reflexivity].
Defined.

(** ** The life-expectancy marks *)

(** C8: the cells that carry an outline are those whose grid coordinates
    are (75, 9) and (80, 14): the template compares the loop variables, which
    count from 1, with the years and weeks of the two constants, while the
    fill of the same cell is asked for at the loop variables less one.  Their
    positions in the grid, 3909 and 4174, are not the [totalWeeks] of the
    constants, 76 * 52 + 10 and 81 * 52 + 15.  The cells at coordinates
    (81, 15) and (76, 10) carry no outline.  There are two outlined cells,
    and the first entry of a cell's class list, its fill, is computed without
    reference to the marks. *)
Theorem life_expectancy_marks :
  outlinedCoordinates = [(75, 9); (80, 14)] /\
  map (fun c => fst c * WEEKS_PER_YEAR + snd c) outlinedCoordinates = [3909; 4174] /\
  totalWeeks LIFE_EXPECTANCY.men = 76 * WEEKS_PER_YEAR + 10 /\
  totalWeeks LIFE_EXPECTANCY.women = 81 * WEEKS_PER_YEAR + 15 /\
  womenMark (81 + 1) (15 + 1) = false /\
  menMark (76 + 1) (10 + 1) = false /\
  womenMark 81 15 = true /\
  menMark 76 10 = true /\
  (forall bd now year week,
     nth 0 (cellClasses bd now year week) EmptyString = fillClass bd now year week /\
     (fillClass bd now year week = "bg-rose-600"%string <->
      isWeekPassed bd now (year - 1) (week - 1) = true)).
Proof.
  do 8 (split; [vm_compute; reflexivity|]).
  intros bd now year week. split; [reflexivity|].
  unfold fillClass.
  destruct (isWeekPassed bd now (year - 1) (week - 1)); split;
    try reflexivity; discriminate.
Qed.

(** ** Start-up and the two parse paths *)

(** C9: a [dob] parameter that passes [isValidDateInput] becomes the birth
    input, hides the picker, and is parsed to the date with the year, month
    and day it spells.  A [dob] parameter that fails it leaves the state
    unchanged: the picker is shown and every cell is not elapsed.  This is
    the case for 2023-02-30. *)
Theorem onMounted_dob (dob : string) :
  (isValidDateInput dob = true ->
   mounted (Some dob) = {| birthInput := dob; hasDobParam := true |} /\
   pickerShown (mounted (Some dob)) = false /\
   exists birth y m d,
     map Number (split_dash dob) = [Some y; Some m; Some d] /\
     birthDateOf (mounted (Some dob)) = Some birth /\
     getFullYear birth = y /\ getMonth birth = m - 1 /\ getDate birth = d) /\
  (isValidDateInput dob = false ->
   mounted (Some dob) = initialState /\
   pickerShown (mounted (Some dob)) = true /\
   forall now yearIndex weekIndex,
     isWeekPassed (birthDateOf (mounted (Some dob))) now yearIndex weekIndex = false) /\
  isValidDateInput "2023-02-30" = false /\
  mounted (Some "2023-02-30"%string) = initialState.
Proof.
  split; [|split; [|split; vm_compute; reflexivity]].
  - intros Hv.
    assert (Hre : dateRegexTest dob = true).
    { unfold isValidDateInput in Hv.
      destruct (dateRegexTest dob); [reflexivity|discriminate Hv]. }
    destruct (dateRegexTest_shape dob Hre)
      as (a & b & c & d & e & f & g & h & -> & Ha & Hb & Hc & Hd & He & Hf & Hg & Hh).
    assert (Em : mounted (Some (dateString a b c d e f g h))
                 = {| birthInput := dateString a b c d e f g h; hasDobParam := true |}).
    { unfold mounted, onMounted. rewrite Hv. reflexivity. }
    rewrite Em. split; [reflexivity|]. split; [reflexivity|].
    unfold birthDateOf. cbn [birthInput].
    rewrite isValidDateInput_dateString in Hv by assumption.
    rewrite birthDate_dateString, dateString_parts by assumption.
    destruct (_ || _); [discriminate Hv|].
    destruct (roundTrips_true _ _ _ Hv) as (E1 & E2 & E3).
    eexists. eexists. eexists. eexists.
    split; [reflexivity|]. split; [reflexivity|]. auto.
  - intros Hv.
    assert (Em : mounted (Some dob) = initialState).
    { unfold mounted, onMounted. rewrite Hv, andb_false_r. reflexivity. }
    rewrite Em. split; [reflexivity|]. split; reflexivity.
Qed.

Lemma onMounted_dob_witness :
  mounted (Some "1990-05-17"%string)
    = {| birthInput := "1990-05-17"; hasDobParam := true |} /\
  mounted (Some "2023-13-01"%string) = initialState.
Proof.
  split.
  - apply (proj1 (onMounted_dob "1990-05-17")). vm_compute. reflexivity.
  - apply (proj1 (proj2 (onMounted_dob "2023-13-01"))). vm_compute. reflexivity.
Defined.

(** C10: the picker's value reaches [birthDate] without the regular
    expression or the round-trip comparison.  The strings 2023-02-30 and
    2023-2-3 fail [isValidDateInput], yet [birthDate] parses them to 2 March
    2023 and 3 February 2023; as a [dob] parameter the same strings are
    ignored. *)
Theorem birthDate_lenient :
  (forall v st, birthDateOf (pickerInput v st) = birthDate v) /\
  isValidDateInput "2023-02-30" = false /\
  (exists dt, birthDate "2023-02-30" = Some dt /\ ymd dt = (2023, 2, 2)) /\
  isValidDateInput "2023-2-3" = false /\
  (exists dt, birthDate "2023-2-3" = Some dt /\ ymd dt = (2023, 1, 3)) /\
  birthDateOf (mounted (Some "2023-02-30"%string)) = None /\
  birthDateOf (mounted (Some "2023-2-3"%string)) = None.
Proof.
  split; [intros v st; reflexivity|].
  split; [vm_compute; reflexivity|].
  split; [exists (newDate 2023 1 30); split; vm_compute; reflexivity|].
  split; [vm_compute; reflexivity|].
  split; [exists (newDate 2023 1 3); split; vm_compute; reflexivity|].
  split; vm_compute; reflexivity.
Qed.

(** * Further properties of the script *)

(** ** [startOfDay] *)

Lemma localMidnight_idempotent t : localMidnight (localMidnight t) = localMidnight t.
Proof. unfold localMidnight. rewrite Day_MakeDate. reflexivity. Qed.

Lemma ymd_localMidnight t : ymd (localMidnight t) = ymd t.
Proof. apply ymd_same_day. unfold localMidnight. apply Day_MakeDate. Qed.

(** X1: for a date outside the years 0 to 99, [startOfDay] is an instant of
    the same calendar day that is not after the date, and applying it twice
    is the same as applying it once. *)
Theorem startOfDay_same_calendar_day (d : Date) :
  ~ 0 <= getFullYear d <= 99 ->
  startOfDay d <= d /\
  getFullYear (startOfDay d) = getFullYear d /\
  getMonth (startOfDay d) = getMonth d /\
  getDate (startOfDay d) = getDate d /\
  startOfDay (startOfDay d) = startOfDay d.
Proof.
  intros Hy.
  pose proof (ymd_localMidnight d) as E. unfold ymd in E.
  injection E as E1 E2 E3.
  assert (Hs : startOfDay (localMidnight d) = localMidnight d).
  { rewrite startOfDay_localMidnight by (rewrite E1; exact Hy).
    apply localMidnight_idempotent. }
  rewrite (startOfDay_localMidnight d Hy).
  split; [apply localMidnight_le|auto].
Qed.

Lemma startOfDay_same_calendar_day_witness :
  startOfDay (startOfDay (newDate 2024 1 29 + 40000000))
  = startOfDay (newDate 2024 1 29 + 40000000).
Proof.
  apply (startOfDay_same_calendar_day (newDate 2024 1 29 + 40000000)).
  vm_compute. intros [_ H]. apply H. reflexivity.
Defined.

(** ** [birthDate] *)

Lemma split_dash_length s : List.length (split_dash s) = S (countDashes s).
Proof.
  induction s as [|c s IH]; [reflexivity|].
  cbn [split_dash countDashes]. destruct (Ascii.eqb c "-").
  - cbn [List.length]. rewrite IH. reflexivity.
  - destruct (split_dash s) as [|p ps]; [discriminate IH|exact IH].
Qed.

Lemma birthDate_inversion s birth :
  birthDate s = Some birth ->
  exists y m d,
    map Number (split_dash s) = [Some y; Some m; Some d] /\
    1 <= y /\ 1 <= m /\ 1 <= d /\ birth = newDate y (m - 1) d.
Proof.
  unfold birthDate. destruct (String.eqb s EmptyString); [discriminate|].
  destruct (split_dash s) as [|p1 [|p2 [|p3 [|p4 l]]]]; cbn [map]; try discriminate.
  destruct (Number p1) as [y|] eqn:E1, (Number p2) as [m|] eqn:E2,
    (Number p3) as [d|] eqn:E3;
    destruct (falsy _ || falsy _ || falsy _) eqn:F; try discriminate.
  intros [= <-]. cbn [falsy] in F.
  apply orb_false_elim in F as [F F3]. apply orb_false_elim in F as [F1 F2].
  apply Z.eqb_neq in F1, F2, F3.
  apply (digitsValue_nonneg p1 0 y (Z.le_refl 0)) in E1.
  apply (digitsValue_nonneg p2 0 m (Z.le_refl 0)) in E2.
  apply (digitsValue_nonneg p3 0 d (Z.le_refl 0)) in E3.
  exists y, m, d. repeat split; try lia.
Qed.

Lemma newDate_is_midnight y m d : localMidnight (newDate y m d) = newDate y m d.
Proof. unfold newDate, localMidnight. cbv zeta. rewrite Day_MakeDate. reflexivity. Qed.

(** X2: for an input made of digits and dashes, [birthDate] returns a date
    only when there are exactly two dashes and the three parts are numbers
    of at least 1.  When the year has at most four digits and the month and
    the day at most two, the date it returns is the constructor's, a local
    midnight in the year 100 or later, and [startOfDay] leaves it
    unchanged. *)
Theorem birthDate_some (s : string) (birth : Date) :
  digitsAndDashes s = true ->
  birthDate s = Some birth ->
  countDashes s = 2%nat /\
  exists y m d,
    map Number (split_dash s) = [Some y; Some m; Some d] /\
    1 <= y /\ 1 <= m /\ 1 <= d /\
    (y <= 9999 -> m <= 99 -> d <= 99 ->
     birth = newDate y (m - 1) d /\
     100 <= getFullYear birth /\
     localMidnight birth = birth /\
     startOfDay birth = birth).
Proof.
  intros _ H.
  destruct (birthDate_inversion s birth H) as (y & m & d & Ep & Hy & Hm & Hd & Eb).
  pose proof (birthDate_year s birth H) as Hyr.
  assert (Hmid : localMidnight birth = birth)
    by (rewrite Eb; apply newDate_is_midnight).
  split.
  { pose proof (split_dash_length s) as Hl.
    rewrite <- (length_map Number), Ep in Hl. cbn [List.length] in Hl. lia. }
  exists y, m, d. do 4 (split; [assumption|]).
  intros _ _ _. split; [exact Eb|]. split; [exact Hyr|]. split; [exact Hmid|].
  rewrite startOfDay_localMidnight by lia. exact Hmid.
Qed.

Lemma birthDate_some_witness : countDashes "1987-11-03" = 2%nat.
Proof.
  apply (birthDate_some "1987-11-03" (newDate 1987 10 3)
           ltac:(vm_compute; reflexivity) ltac:(vm_compute; reflexivity)).
Defined.

(** X3: on a string of date shape, [birthDate] is null exactly when one of
    the three numbers is zero; otherwise it is the date the constructor
    builds from them, whether or not they name a day of the calendar. *)
Theorem birthDate_date_shape (y m d : Z) :
  0 <= y <= 9999 -> 0 <= m <= 99 -> 0 <= d <= 99 ->
  (birthDate (formatDate y m d) = None <-> y = 0 \/ m = 0 \/ d = 0) /\
  (1 <= y -> 1 <= m -> 1 <= d ->
   birthDate (formatDate y m d) = Some (newDate y (m - 1) d)).
Proof.
  intros Hy Hm Hd.
  destruct (formatDate_values y m d Hy Hm Hd) as [_ E]. rewrite E.
  destruct (Z.eqb_spec y 0), (Z.eqb_spec m 0), (Z.eqb_spec d 0); cbn [orb];
    (split; [split; [intros H; try discriminate H; lia|intros H; try reflexivity; lia]
            |intros; try reflexivity; lia]).
Qed.

Lemma birthDate_date_shape_witness :
  birthDate (formatDate 2023 2 31) = Some (newDate 2023 (2 - 1) 31).
Proof.
  apply (proj2 (birthDate_date_shape 2023 2 31 ltac:(lia) ltac:(lia) ltac:(lia))); lia.
Defined.

(** ** [getAgeYears], [lastBirthday] and [weeksSinceLastBirthday] *)

Lemma ymd_mono a b : a <= b -> ymd_le (ymd a) (ymd b).
Proof.
  intros H. destruct (civil_decomposition a) as (HM & HD & Ht).
  unfold ymd at 1. apply day_threshold; [exact HM|lia|].
  rewrite MakeDay_in_year by exact HM. rewrite <- Ht. apply Day_mono. exact H.
Qed.

Lemma rawAge_antitone_birth b1 b2 onDate :
  b1 <= b2 -> rawAge b2 onDate <= rawAge b1 onDate.
Proof.
  intros H. apply rawAge_ge.
  pose proof (proj1 (rawAge_ge b2 onDate (rawAge b2 onDate)) (Z.le_refl _)) as H2.
  pose proof (ymd_mono b1 b2 H) as H1.
  unfold ymd, ymd_le in *. lia.
Qed.

(** X4: the age never decreases as [onDate] advances, and of two people the
    one born earlier is never the younger. *)
Theorem getAgeYears_monotone (b1 b2 t1 t2 : Date) :
  b1 <= b2 -> t1 <= t2 ->
  getAgeYears b1 t1 <= getAgeYears b1 t2 /\
  getAgeYears b2 t1 <= getAgeYears b1 t1.
Proof.
  intros Hb Ht. split; [apply getAgeYears_mono; exact Ht|].
  rewrite !getAgeYears_rawAge.
  pose proof (rawAge_antitone_birth b1 b2 t1 Hb). lia.
Qed.

Lemma getAgeYears_monotone_witness :
  getAgeYears (newDate 1990 5 1) (newDate 2020 0 1)
    <= getAgeYears (newDate 1990 5 1) (newDate 2020 6 1) /\
  getAgeYears (newDate 1991 5 1) (newDate 2020 0 1)
    <= getAgeYears (newDate 1990 5 1) (newDate 2020 0 1).
Proof.
  apply (getAgeYears_monotone (newDate 1990 5 1) (newDate 1991 5 1)
           (newDate 2020 0 1) (newDate 2020 6 1)).
  - vm_compute. discriminate.
  - vm_compute. discriminate.
Defined.

Lemma anniversaryDay_step birth k :
  365 <= anniversaryDay birth (k + 1) - anniversaryDay birth k <= 366.
Proof.
  destruct (civil_decomposition birth) as (HM & HD & _).
  unfold anniversaryDay. rewrite !MakeDay_in_year by exact HM.
  replace (getFullYear birth + (k + 1)) with (getFullYear birth + k + 1) by lia.
  rewrite DayFromYear_succ, DaysInYear_leapDays.
  pose proof (leapDays_01 (getFullYear birth + k)) as H1.
  pose proof (leapDays_01 (getFullYear birth + k + 1)) as H2.
  revert H1 H2.
  generalize (ES.leapDays (getFullYear birth + k))
    (ES.leapDays (getFullYear birth + k + 1)) (ES.DayFromYear (getFullYear birth + k)).
  clear HD. revert HM. generalize (getMonth birth) (getDate birth).
  intros m d HM l1 l2 base H1 H2.
  assert (Hms : ES.monthStart l2 m - ES.monthStart l1 m = 0
                \/ (2 <= m /\ ES.monthStart l2 m - ES.monthStart l1 m = l2 - l1)).
  { destruct H1 as [-> | ->], H2 as [-> | ->]; month_cases m; cbn; lia. }
  lia.
Qed.

Lemma MakeDate_lt_iff n t : t < ES.MakeDate n 0 <-> ES.Day t < n.
Proof. pose proof (MakeDate_le_iff n t). lia. Qed.

(** X5: for a birth date from the year 100 on and an [onDate] not before
    the day of birth, [lastBirthday] is the latest anniversary that is not
    after [onDate]: it is not after [onDate], and the next anniversary is
    after [onDate]. *)
Theorem lastBirthday_is_latest (birth onDate : Date) :
  100 <= getFullYear birth -> localMidnight birth <= onDate ->
  lastBirthday birth onDate <= onDate /\
  onDate < anniversary birth (getAgeYears birth onDate + 1).
Proof.
  intros Hy Hb.
  pose proof (getAgeYears_nonneg birth onDate) as Hage.
  assert (Hraw : 0 <= rawAge birth onDate).
  { apply rawAge_anniversary. rewrite anniversaryDay_0.
    apply MakeDate_le_iff. exact Hb. }
  assert (Hage' : getAgeYears birth onDate = rawAge birth onDate)
    by (rewrite getAgeYears_rawAge; lia).
  rewrite lastBirthday_anniversary by lia.
  pose proof (rawAge_anniversary birth onDate (getAgeYears birth onDate)) as H1.
  pose proof (rawAge_anniversary birth onDate (getAgeYears birth onDate + 1)) as H2.
  split; [apply anniversary_le_iff; lia|].
  apply MakeDate_lt_iff. lia.
Qed.

Lemma lastBirthday_is_latest_witness :
  newDate 2005 5 14 < anniversary (newDate 2000 5 15)
                        (getAgeYears (newDate 2000 5 15) (newDate 2005 5 14) + 1).
Proof.
  apply (lastBirthday_is_latest (newDate 2000 5 15) (newDate 2005 5 14)).
  - vm_compute. discriminate.
  - vm_compute. discriminate.
Defined.

(** Between two dates from the year 100 on, the weeks are the whole weeks in
    the days from the anniversary at the age to the day of [onDate]. *)
Lemma weeksSinceLastBirthday_days birth onDate :
  100 <= getFullYear birth -> 100 <= getFullYear onDate ->
  weeksSinceLastBirthday birth onDate
  = Z.max 0 (ES.Day onDate - anniversaryDay birth (getAgeYears birth onDate)) / 7.
Proof.
  intros Hb Ho.
  pose proof (getAgeYears_nonneg birth onDate) as Hage.
  assert (Hlb : lastBirthday birth onDate
                = anniversary birth (getAgeYears birth onDate))
    by (apply lastBirthday_anniversary; lia).
  assert (Hs : startOfDay (anniversary birth (getAgeYears birth onDate))
               = ES.MakeDate (anniversaryDay birth (getAgeYears birth onDate)) 0).
  { rewrite startOfDay_localMidnight by (rewrite getFullYear_anniversary; lia).
    unfold localMidnight. rewrite Day_anniversary. reflexivity. }
  unfold weeksSinceLastBirthday. cbv zeta.
  rewrite Hlb, Hs, (startOfDay_localMidnight onDate) by lia.
  unfold localMidnight, getTime.
  generalize (ES.Day onDate) (anniversaryDay birth (getAgeYears birth onDate)).
  intros n a. unfold ES.MakeDate, ES.msPerDay, msPerWeek.
  destruct (Z.leb_spec (n * 86400000 + 0 - (a * 86400000 + 0)) 0).
  - replace (Z.max 0 (n - a)) with 0 by lia. reflexivity.
  - replace (Z.max 0 (n - a)) with (n - a) by lia.
    change (1000 * 60 * 60 * 24 * 7) with 604800000.
    Z.div_mod_to_equations. lia.
Qed.

(** X6: between a birth date and an [onDate] that both lie in the year 100
    or later, [weeksSinceLastBirthday] is between 0 and 52, so the cap that
    [isWeekPassed] applies does not change it. *)
Theorem weeksSinceLastBirthday_at_most_52 (birth onDate : Date) :
  100 <= getFullYear birth -> 100 <= getFullYear onDate ->
  0 <= weeksSinceLastBirthday birth onDate <= 52 /\
  Z.min WEEKS_PER_YEAR (weeksSinceLastBirthday birth onDate)
  = weeksSinceLastBirthday birth onDate.
Proof.
  intros Hb Ho.
  pose proof (weeksSinceLastBirthday_days birth onDate Hb Ho) as E.
  pose proof (weeksSinceLastBirthday_nonneg birth onDate) as H0.
  assert (Hd : ES.Day onDate - anniversaryDay birth (getAgeYears birth onDate) <= 365).
  { pose proof (rawAge_anniversary birth onDate (getAgeYears birth onDate + 1)) as H2.
    pose proof (anniversaryDay_step birth (getAgeYears birth onDate)) as Hstep.
    pose proof (rawAge_anniversary birth onDate 0) as H3.
    rewrite anniversaryDay_0 in H3.
    rewrite getAgeYears_rawAge in *.
    destruct (Z.le_gt_cases 0 (rawAge birth onDate)) as [Hr|Hr].
    - replace (Z.max 0 (rawAge birth onDate)) with (rawAge birth onDate) in * by lia.
      lia.
    - replace (Z.max 0 (rawAge birth onDate)) with 0 in * by lia.
      rewrite anniversaryDay_0. lia. }
  assert (Hw : weeksSinceLastBirthday birth onDate <= 52).
  { rewrite E. revert Hd.
    generalize (ES.Day onDate - anniversaryDay birth (getAgeYears birth onDate)).
    intros n Hn. Z.div_mod_to_equations. lia. }
  split; [lia|]. unfold WEEKS_PER_YEAR. lia.
Qed.

Lemma weeksSinceLastBirthday_at_most_52_witness :
  0 <= weeksSinceLastBirthday (newDate 2000 1 29) (newDate 2001 1 28) <= 52.
Proof.
  apply (weeksSinceLastBirthday_at_most_52 (newDate 2000 1 29) (newDate 2001 1 28)).
  - vm_compute. discriminate.
  - vm_compute. discriminate.
Defined.

(** ** [isWeekPassed] *)

Lemma Day_of_ymd a b : ymd a = ymd b -> ES.Day a = ES.Day b.
Proof.
  intros E. unfold ymd in E. injection E as E1 E2 E3.
  destruct (civil_decomposition a) as (_ & _ & Ha).
  destruct (civil_decomposition b) as (_ & _ & Hb).
  rewrite Ha, Hb, E1, E2, E3. reflexivity.
Qed.

Lemma Day_newDate_offset birth k d :
  100 <= getFullYear birth -> 0 <= k ->
  ES.Day (newDate (getFullYear birth + k) (getMonth birth) (getDate birth + d))
  = anniversaryDay birth k + d.
Proof.
  intros Hy Hk. destruct (civil_decomposition birth) as (HM & _ & _).
  rewrite newDate_plain by lia. rewrite Day_MakeDate.
  unfold anniversaryDay. rewrite !MakeDay_in_year by exact HM. lia.
Qed.

(** X7: let [now] fall on the calendar day that the constructor gives for
    [d] days after the [k]-th birthday (d from 0 to 364), for a birth date
    from the year 100 on.  Then the age is [k]; the weeks since the last
    birthday lie between the whole weeks in [d - 1] days and the whole weeks
    in [d] days; the rows before [k] are elapsed in full, the rows after [k]
    not at all, and in row [k] the cells below [(d - 1) / 7] are elapsed and
    the cells from [d / 7] on are not. *)
Theorem grid_after_birthday (birth now : Date) (k d yearIndex weekIndex : Z) :
  100 <= getFullYear birth -> 0 <= k -> 0 <= d < 365 ->
  ymd now
  = ymd (newDate (getFullYear birth + k) (getMonth birth) (getDate birth + d)) ->
  getAgeYears birth now = k /\
  (d - 1) / 7 <= weeksSinceLastBirthday birth now <= d / 7 /\
  (yearIndex < k -> isWeekPassed (Some birth) now yearIndex weekIndex = true) /\
  (k < yearIndex -> isWeekPassed (Some birth) now yearIndex weekIndex = false) /\
  (yearIndex = k -> weekIndex < (d - 1) / 7 ->
   isWeekPassed (Some birth) now yearIndex weekIndex = true) /\
  (yearIndex = k -> d / 7 <= weekIndex ->
   isWeekPassed (Some birth) now yearIndex weekIndex = false).
Proof.
  intros Hy Hk Hd Hnow.
  assert (Hday : ES.Day now = anniversaryDay birth k + d).
  { rewrite (Day_of_ymd _ _ Hnow). apply Day_newDate_offset; assumption. }
  assert (Hage : getAgeYears birth now = k).
  { rewrite getAgeYears_rawAge.
    pose proof (rawAge_anniversary birth now k) as H1.
    pose proof (rawAge_anniversary birth now (k + 1)) as H2.
    pose proof (anniversaryDay_step birth k). lia. }
  assert (Hyear : 100 <= getFullYear now).
  { assert (Hle : anniversary birth k <= now) by (apply anniversary_le_iff; lia).
    pose proof (getFullYear_mono _ _ Hle) as Hm.
    rewrite getFullYear_anniversary in Hm. lia. }
  assert (Hwk : weeksSinceLastBirthday birth now = d / 7).
  { rewrite (weeksSinceLastBirthday_days birth now Hy Hyear), Hage, Hday.
    f_equal. lia. }
  assert (Hq : (d - 1) / 7 <= d / 7 <= 52) by (Z.div_mod_to_equations; lia).
  split; [exact Hage|]. split; [lia|].
  unfold isWeekPassed. cbv zeta. rewrite Hage, Hwk, Z.gtb_ltb.
  unfold WEEKS_PER_YEAR.
  replace (Z.min 52 (d / 7)) with (d / 7) by lia.
  destruct (Z.ltb_spec yearIndex k), (Z.ltb_spec k yearIndex),
    (Z.ltb_spec weekIndex (d / 7));
    repeat split; intros; try reflexivity; lia.
Qed.

Lemma grid_after_birthday_witness :
  getAgeYears (newDate 1990 5 15) (newDate 2020 5 (15 + 100) + 3600000) = 30 /\
  isWeekPassed (Some (newDate 1990 5 15)) (newDate 2020 5 (15 + 100) + 3600000) 30 20
  = false.
Proof.
  pose proof (grid_after_birthday (newDate 1990 5 15)
                (newDate 2020 5 (15 + 100) + 3600000) 30 100 30 20
                ltac:(vm_compute; discriminate) ltac:(lia) ltac:(lia)
                ltac:(vm_compute; reflexivity)) as H.
  split; [apply H|].
  apply (proj2 (proj2 (proj2 (proj2 (proj2 H))))).
  - reflexivity.
  - vm_compute. discriminate.
Defined.

(** X8: the elapsed cells are an initial part of the grid read row by row:
    if a cell is elapsed, so is every cell of an earlier row and every cell
    of the same row at an earlier week. *)
Theorem isWeekPassed_initial_part (bd : option Date) (now : Date)
    (yearIndex weekIndex yearIndex' weekIndex' : Z) :
  isWeekPassed bd now yearIndex weekIndex = true ->
  yearIndex' < yearIndex \/ (yearIndex' = yearIndex /\ weekIndex' <= weekIndex) ->
  isWeekPassed bd now yearIndex' weekIndex' = true.
Proof.
  destruct bd as [birth|]; [|discriminate].
  unfold isWeekPassed. cbv zeta. rewrite !Z.gtb_ltb.
  generalize (getAgeYears birth now)
    (Z.min WEEKS_PER_YEAR (weeksSinceLastBirthday birth now)).
  intros age wk H Hle.
  destruct (Z.ltb_spec yearIndex age), (Z.ltb_spec age yearIndex),
    (Z.ltb_spec yearIndex' age), (Z.ltb_spec age yearIndex');
    try reflexivity; try discriminate; try lia.
Qed.

Lemma isWeekPassed_initial_part_witness :
  isWeekPassed (Some (newDate 2000 0 1)) (newDate 2005 5 15) 4 51 = true.
Proof.
  apply (isWeekPassed_initial_part (Some (newDate 2000 0 1)) (newDate 2005 5 15)
           5 10 4 51).
  - vm_compute. reflexivity.
  - left. lia.
Defined.

(** X9: when the observation instant, in the year 100 or later, falls on
    the day of birth or on an earlier day, no cell with non-negative
    coordinates is elapsed. *)
Theorem isWeekPassed_not_yet_born (birth now : Date) (yearIndex weekIndex : Z) :
  100 <= getFullYear now -> ES.Day now <= ES.Day birth ->
  0 <= yearIndex -> 0 <= weekIndex ->
  isWeekPassed (Some birth) now yearIndex weekIndex = false.
Proof.
  intros Hy Hday Hyi Hwi.
  assert (Hyb : 100 <= getFullYear birth).
  { unfold getFullYear, ES.YearFromTime in *.
    pose proof (YearFromDay_spec (ES.Day now)) as Hs.
    pose proof (YearFromDay_ge (ES.Day birth) (ES.YearFromDay (ES.Day now))). lia. }
  assert (Hage : getAgeYears birth now = 0).
  { rewrite getAgeYears_rawAge.
    pose proof (rawAge_anniversary birth now 1) as H1.
    pose proof (anniversaryDay_step birth 0) as Hs. cbn [Z.add] in Hs.
    rewrite anniversaryDay_0 in Hs. lia. }
  assert (Hwk : weeksSinceLastBirthday birth now = 0).
  { rewrite (weeksSinceLastBirthday_days birth now Hyb Hy), Hage, anniversaryDay_0.
    replace (Z.max 0 (ES.Day now - ES.Day birth)) with 0 by lia. reflexivity. }
  unfold isWeekPassed. cbv zeta. rewrite Hage, Hwk, Z.gtb_ltb.
  unfold WEEKS_PER_YEAR. change (Z.min 52 0) with 0.
  destruct (Z.ltb_spec yearIndex 0), (Z.ltb_spec 0 yearIndex),
    (Z.ltb_spec weekIndex 0); try reflexivity; lia.
Qed.

Lemma isWeekPassed_not_yet_born_witness :
  isWeekPassed (Some (newDate 2030 3 9)) (newDate 2026 10 2) 0 0 = false.
Proof.
  apply (isWeekPassed_not_yet_born (newDate 2030 3 9) (newDate 2026 10 2) 0 0).
  - vm_compute. discriminate.
  - vm_compute. discriminate.
  - lia.
  - lia.
Defined.

(** X10: the grid is the same at every instant of a day: [isWeekPassed] at
    an instant equals [isWeekPassed] at the local midnight that begins its
    day. *)
Theorem isWeekPassed_time_of_day (bd : option Date) (now : Date)
    (yearIndex weekIndex : Z) :
  isWeekPassed bd now yearIndex weekIndex
  = isWeekPassed bd (localMidnight now) yearIndex weekIndex.
Proof.
  apply isWeekPassed_same_day. unfold localMidnight.
  symmetry. apply Day_MakeDate.
Qed.

(** ** The mount hook and the picker *)

Lemma isValidDateInput_birthDate s :
  isValidDateInput s = true -> exists birth, birthDate s = Some birth.
Proof.
  intros Hv.
  assert (Hre : dateRegexTest s = true).
  { unfold isValidDateInput in Hv.
    destruct (dateRegexTest s); [reflexivity|discriminate Hv]. }
  destruct (dateRegexTest_shape s Hre)
    as (a & b & c & d & e & f & g & h & -> & Ha & Hb & Hc & Hd & He & Hf & Hg & Hh).
  rewrite isValidDateInput_dateString in Hv by assumption.
  rewrite birthDate_dateString by assumption.
  destruct (_ || _); [discriminate Hv|].
  eexists. reflexivity.
Qed.

(** X11: in every state the component can reach, if the picker is hidden
    then the birth input passed [isValidDateInput] and parses to a birth
    date; and mounting never turns a hidden picker back on. *)
Theorem hidden_picker_has_valid_birth (st : State) :
  reachable st ->
  (hasDobParam st = true ->
   isValidDateInput (birthInput st) = true /\
   exists birth, birthDateOf st = Some birth) /\
  (forall dob, hasDobParam st = true -> hasDobParam (onMounted dob st) = true).
Proof.
  intros Hr. split.
  - induction Hr as [|dob st Hr IH|v st Hr IH Hp].
    + discriminate.
    + unfold onMounted. destruct dob as [v|]; [|exact IH].
      destruct (negb (String.eqb v EmptyString) && isValidDateInput v) eqn:E;
        [|exact IH].
      intros _. apply andb_prop in E as [_ Hv]. cbn [birthInput].
      split; [exact Hv|]. apply isValidDateInput_birthDate. exact Hv.
    + unfold pickerShown in Hp. cbn [pickerInput hasDobParam].
      intros H. rewrite H in Hp. discriminate Hp.
  - intros dob H. unfold onMounted. destruct dob as [v|]; [|exact H].
    destruct (negb (String.eqb v EmptyString) && isValidDateInput v);
      [reflexivity|exact H].
Qed.

Lemma hidden_picker_has_valid_birth_witness :
  isValidDateInput (birthInput (onMounted (Some "1990-05-17"%string) initialState)) = true.
Proof.
  apply (proj1 (hidden_picker_has_valid_birth
                  (onMounted (Some "1990-05-17"%string) initialState)
                  (reachable_onMounted _ _ reachable_initial))).
  vm_compute. reflexivity.
Defined.

(** ** Counting the elapsed cells *)

Lemma filter_map_length {A B} (p : B -> bool) (h : A -> B) (l : list A) :
  List.length (filter p (map h l)) = List.length (filter (fun x => p (h x)) l).
Proof.
  induction l as [|x l IH]; [reflexivity|].
  cbn [map filter]. destruct (p (h x)); cbn [List.length]; rewrite IH; reflexivity.
Qed.

Lemma filter_all_length {A} (p : A -> bool) (l : list A) :
  (forall x, p x = true) -> List.length (filter p l) = List.length l.
Proof.
  intros H. induction l as [|x l IH]; [reflexivity|].
  cbn [filter]. rewrite H. cbn [List.length]. rewrite IH. reflexivity.
Qed.

Lemma filter_none_length {A} (p : A -> bool) (l : list A) :
  (forall x, p x = false) -> List.length (filter p l) = O.
Proof.
  intros H. induction l as [|x l IH]; [reflexivity|].
  cbn [filter]. rewrite H. exact IH.
Qed.

(** Cells of one row below a bound [W]. *)
Lemma count_row (n : nat) (W : Z) :
  0 <= W ->
  List.length (filter (fun w => w - 1 <? W) (map Z.of_nat (seq 1 n)))
  = Z.to_nat (Z.min (Z.of_nat n) W).
Proof.
  intros HW. induction n as [|n IH]; [cbn; lia|].
  rewrite seq_S, map_app, filter_app, length_app, IH.
  cbn [map filter Nat.add].
  destruct (Z.ltb_spec (Z.of_nat (S n) - 1) W); cbn [List.length]; lia.
Qed.

Section CountCells.
Variable f : Z -> Z -> bool.
Variables a W : Z.
Hypothesis Ha : 0 <= a.
Hypothesis HW : 0 <= W <= 52.
Hypothesis Hf : forall y w,
  f y w = if y <? a then true else if a <? y then false else w <? W.

Lemma count_one_row (n : nat) :
  List.length
    (filter (fun c => f (fst c - 1) (snd c - 1))
            (map (fun week => (Z.of_nat (S n), week)) (vFor 52)))
  = Z.to_nat (if Z.of_nat n <? a then 52
              else if a <? Z.of_nat n then 0 else W).
Proof.
  rewrite filter_map_length. cbn [fst snd].
  replace (Z.of_nat (S n) - 1) with (Z.of_nat n) by lia.
  destruct (Z.ltb_spec (Z.of_nat n) a) as [H1|H1].
  - rewrite filter_all_length.
    + unfold vFor. rewrite length_map, length_seq. reflexivity.
    + intros w. rewrite Hf. destruct (Z.ltb_spec (Z.of_nat n) a); [reflexivity|lia].
  - destruct (Z.ltb_spec a (Z.of_nat n)) as [H2|H2].
    + rewrite filter_none_length; [reflexivity|].
      intros w. rewrite Hf.
      destruct (Z.ltb_spec (Z.of_nat n) a); [lia|].
      destruct (Z.ltb_spec a (Z.of_nat n)); [reflexivity|lia].
    + rewrite (filter_ext _ (fun w => w - 1 <? W)).
      * unfold vFor. change (Z.to_nat 52) with 52%nat.
        rewrite count_row by lia. f_equal. lia.
      * intros w. rewrite Hf.
        destruct (Z.ltb_spec (Z.of_nat n) a); [lia|].
        destruct (Z.ltb_spec a (Z.of_nat n)); [lia|reflexivity].
Qed.

Lemma count_rows (n : nat) :
  List.length
    (filter (fun c => f (fst c - 1) (snd c - 1))
            (flat_map (fun year => map (fun week => (year, week)) (vFor 52))
                      (map Z.of_nat (seq 1 n))))
  = Z.to_nat (Z.min (52 * Z.of_nat n) (52 * a + W)).
Proof.
  induction n as [|n IH]; [cbn; lia|].
  rewrite seq_S, map_app, flat_map_app, filter_app, length_app, IH.
  cbn [map flat_map Nat.add]. rewrite app_nil_r, count_one_row.
  destruct (Z.ltb_spec (Z.of_nat n) a); [lia|].
  destruct (Z.ltb_spec a (Z.of_nat n)); lia.
Qed.

End CountCells.

(** X12: the number of cells drawn as elapsed is 52 for each completed year
    plus the weeks since the last birthday, these capped at 52 and the total
    at the 4680 cells of the grid; without a birth date it is 0. *)
Theorem filledCells_count (birth now : Date) :
  filledCells None now = O /\
  filledCells (Some birth) now
  = Z.to_nat (Z.min (TOTAL_YEARS * WEEKS_PER_YEAR)
                (WEEKS_PER_YEAR * getAgeYears birth now
                 + Z.min WEEKS_PER_YEAR (weeksSinceLastBirthday birth now))).
Proof.
  split.
  - unfold filledCells. apply filter_none_length. intros c. reflexivity.
  - pose proof (getAgeYears_nonneg birth now) as Ha.
    pose proof (weeksSinceLastBirthday_nonneg birth now) as Hw.
    unfold filledCells, gridCells, TOTAL_YEARS, WEEKS_PER_YEAR.
    unfold vFor at 2. change (Z.to_nat 90) with 90%nat.
    rewrite (count_rows (isWeekPassed (Some birth) now)
               (getAgeYears birth now)
               (Z.min 52 (weeksSinceLastBirthday birth now))); [reflexivity|lia|lia|].
    intros y w. unfold isWeekPassed. cbv zeta. rewrite Z.gtb_ltb.
    unfold WEEKS_PER_YEAR. reflexivity.
Qed.

(** ** More on [isValidDateInput] and on leap-day births *)

(** X13: a string of date shape passes [isValidDateInput] exactly when its
    year is at least 100 and its numbers name a day of the calendar; in
    particular every date of the years 0000 to 0099 is rejected. *)
Theorem isValidDateInput_exactly (y m d : Z) :
  0 <= y <= 9999 -> 0 <= m <= 99 -> 0 <= d <= 99 ->
  (isValidDateInput (formatDate y m d) = true
   <-> 100 <= y /\ validCalendarDate y m d) /\
  (y <= 99 -> isValidDateInput (formatDate y m d) = false).
Proof.
  intros Hy Hm Hd.
  destruct (formatDate_values y m d Hy Hm Hd) as [E _].
  assert (Hiff : isValidDateInput (formatDate y m d) = true
                 <-> 100 <= y /\ validCalendarDate y m d).
  { rewrite E. split.
    - destruct (Z.eqb_spec y 0), (Z.eqb_spec m 0), (Z.eqb_spec d 0);
        cbn [orb]; try discriminate.
      intros H. apply roundTrips_sound; [lia|lia|lia|exact H].
    - intros [H100 Hv].
      assert (Hz : (y =? 0) || (m =? 0) || (d =? 0) = false).
      { unfold validCalendarDate in Hv.
        destruct (Z.eqb_spec y 0), (Z.eqb_spec m 0), (Z.eqb_spec d 0);
          cbn; try reflexivity; lia. }
      rewrite Hz. apply roundTrips_valid; [lia|exact Hv]. }
  split; [exact Hiff|].
  intros H99. destruct (isValidDateInput (formatDate y m d)) eqn:Ev; [|reflexivity].
  destruct Hiff as [Hi _]. specialize (Hi eq_refl). lia.
Qed.

Lemma isValidDateInput_exactly_witness :
  isValidDateInput (formatDate 99 12 31) = false.
Proof.
  apply (proj2 (isValidDateInput_exactly 99 12 31 ltac:(lia) ltac:(lia) ltac:(lia))).
  lia.
Defined.

(** X14: for a birth on 29 February, in a year without that day the
    birthday falls on 1 March: the anniversary is 1 March, the day before it
    is 28 February, the age is still [k - 1] on 28 February and is [k] on
    1 March. *)
Theorem leap_day_birthday (birth : Date) (k : Z) :
  getMonth birth = 1 -> getDate birth = 29 -> 1 <= k ->
  ES.leapDays (getFullYear birth + k) = 0 ->
  ymd (anniversary birth k) = (getFullYear birth + k, 2, 1) /\
  ymd (anniversary birth k - ES.msPerDay) = (getFullYear birth + k, 1, 28) /\
  getAgeYears birth (anniversary birth k - ES.msPerDay) = k - 1 /\
  getAgeYears birth (anniversary birth k) = k.
Proof.
  intros Hm Hd Hk Hl.
  assert (Hday : anniversaryDay birth k = ES.DayFromYear (getFullYear birth + k) + 59).
  { unfold anniversaryDay. rewrite Hm, Hd, MakeDay_in_year by lia.
    rewrite Hl. cbn [ES.monthStart]. lia. }
  split; [|split].
  - destruct (civil_unique (anniversary birth k) (getFullYear birth + k) 2 1)
      as (E1 & E2 & E3).
    + lia.
    + rewrite Hl. cbn. lia.
    + rewrite Day_anniversary, Hday, Hl. cbn [ES.monthStart]. lia.
    + unfold ymd. rewrite E1, E2, E3. reflexivity.
  - destruct (civil_unique (anniversary birth k - ES.msPerDay)
                (getFullYear birth + k) 1 28) as (E1 & E2 & E3).
    + lia.
    + rewrite Hl. cbn. lia.
    + rewrite Day_before_anniversary, Hday. cbn [ES.monthStart]. lia.
    + unfold ymd. rewrite E1, E2, E3. reflexivity.
  - rewrite !getAgeYears_rawAge, rawAge_at_anniversary, rawAge_day_before_anniversary.
    lia.
Qed.

Lemma leap_day_birthday_witness :
  ymd (anniversary (newDate 2000 1 29) 1) = (getFullYear (newDate 2000 1 29) + 1, 2, 1).
Proof.
  apply (leap_day_birthday (newDate 2000 1 29) 1).
  - vm_compute. reflexivity.
  - vm_compute. reflexivity.
  - lia.
  - vm_compute. reflexivity.
Defined.
